(** * Maricheck crew registry: a shallow embedding of [app.py] and [models.py]

    The Flask handlers are embedded as functions from a request, the shared
    world (database tables, upload directory, clock) and the caller's session
    to a response, the flashed messages, the new world and the new session.

    Modelling conventions.
    - Python [str] values are [string]s read as ASCII text; [upper], [lower]
      and [strip] follow CPython on the code points 0..127 and leave the
      others alone (Unicode case mapping is outside the model).
    - A table is the list of its rows in insertion order.  Of the column
      constraints only [unique=True] on [CrewMember.passport] and
      [Admin.username] is enforced at insertion; engine dependent length
      checks are not modelled.
    - [session] is a dictionary ([gmap]); flashed messages are returned next
      to the response instead of being stored under a session key.
    - Library functions whose code is not part of the repository
      ([secure_filename], [check_password_hash], [generate_password_hash],
      [strptime], [int], [strftime]) are fields of the class [Runtime].
    - Operating system failures (disk full, permissions) are not modelled. *)

From Stdlib Require Import ZArith String Ascii List Bool Lia Sorted Permutation.
From stdpp Require Import base option gmap strings.
Import ListNotations.

Local Open Scope string_scope.
Local Open Scope Z_scope.

(* ===================================================================== *)
(** ** Python strings *)
(* ===================================================================== *)

Module PyStr.

(** [bool(s)]: a string is truthy when it is not empty. *)
Definition truthy (s : string) : bool :=
  match s with EmptyString => false | String _ _ => true end.

(** [str.isspace] on one ASCII character: TAB..CR, FS..US and SPACE. *)
Definition is_space (c : ascii) : bool :=
  let n := N_of_ascii c in
  ((9 <=? n) && (n <=? 13) || (28 <=? n) && (n <=? 32))%N.

Fixpoint lstrip (s : string) : string :=
  match s with
  | EmptyString => EmptyString
  | String c s' => if is_space c then lstrip s' else s
  end.

Fixpoint rstrip (s : string) : string :=
  match s with
  | EmptyString => EmptyString
  | String c s' =>
      match rstrip s' with
      | EmptyString => if is_space c then EmptyString else String c EmptyString
      | r => String c r
      end
  end.

(** [s.strip()] *)
Definition strip (s : string) : string := rstrip (lstrip s).

Definition is_lower (c : ascii) : bool :=
  let n := N_of_ascii c in ((97 <=? n) && (n <=? 122))%N.

Definition is_upper (c : ascii) : bool :=
  let n := N_of_ascii c in ((65 <=? n) && (n <=? 90))%N.

Definition upper_char (c : ascii) : ascii :=
  if is_lower c then ascii_of_N (N_of_ascii c - 32) else c.

Definition lower_char (c : ascii) : ascii :=
  if is_upper c then ascii_of_N (N_of_ascii c + 32) else c.

Fixpoint map_chars (f : ascii -> ascii) (s : string) : string :=
  match s with
  | EmptyString => EmptyString
  | String c s' => String (f c) (map_chars f s')
  end.

(** [s.upper()] and [s.lower()] *)
Definition upper : string -> string := map_chars upper_char.
Definition lower : string -> string := map_chars lower_char.

(** [s.replace(a, b)] for one-character [a] and [b]. *)
Definition replace (a b : ascii) : string -> string :=
  map_chars (fun c => if Ascii.eqb c a then b else c).

(** [c in s] for a one-character [c]. *)
Fixpoint contains (c : ascii) (s : string) : bool :=
  match s with
  | EmptyString => false
  | String a s' => Ascii.eqb a c || contains c s'
  end.

(** [s.rsplit(c, 1)]: split once, at the last [c]; the whole string alone
    when [c] does not occur. *)
Fixpoint rsplit1 (c : ascii) (s : string) : list string :=
  match s with
  | EmptyString => [EmptyString]
  | String a s' =>
      match rsplit1 c s' with
      | [h; t] => [String a h; t]
      | _ => if Ascii.eqb a c then [EmptyString; s'] else [s]
      end
  end.

(** [s.rfind(c)]: the last index of [c], or -1. *)
Fixpoint rfind (c : ascii) (s : string) : Z :=
  match s with
  | EmptyString => -1
  | String a s' =>
      let r := rfind c s' in
      if 0 <=? r then r + 1 else if Ascii.eqb a c then 0 else -1
  end.

(** The slices [s[:i]] and [s[i:]] for [0 <= i]. *)
Definition take (i : Z) (s : string) : string :=
  String.substring 0 (Z.to_nat i) s.
Definition drop (i : Z) (s : string) : string :=
  String.substring (Z.to_nat i) (String.length s - Z.to_nat i) s.

Fixpoint all_chars (p : ascii -> bool) (s : string) : bool :=
  match s with
  | EmptyString => true
  | String a s' => p a && all_chars p s'
  end.

Definition startswith_char (c : ascii) (s : string) : bool :=
  match s with String a _ => Ascii.eqb a c | EmptyString => false end.

Fixpoint endswith_char (c : ascii) (s : string) : bool :=
  match s with
  | EmptyString => false
  | String a EmptyString => Ascii.eqb a c
  | String _ s' => endswith_char c s'
  end.

(** [s.rstrip(c)] for a one-character [c]. *)
Fixpoint rstrip_char (c : ascii) (s : string) : string :=
  match s with
  | EmptyString => EmptyString
  | String a s' =>
      match rstrip_char c s' with
      | EmptyString => if Ascii.eqb a c then EmptyString else String a EmptyString
      | r => String a r
      end
  end.


End PyStr.

(** [seq[i]] on a Python list: negative indices count from the end, and an
    index out of range raises [IndexError] ([None]). *)
Definition py_index {A : Type} (l : list A) (i : Z) : option A :=
  let n := Z.of_nat (List.length l) in
  if (0 <=? i) && (i <? n) then nth_error l (Z.to_nat i)
  else if (- n <=? i) && (i <? 0) then nth_error l (Z.to_nat (i + n))
  else None.

(* ===================================================================== *)
(** ** posixpath *)
(* ===================================================================== *)

Module PosixPath.
Import PyStr.

Definition sep : ascii := "/"%char.
Definition extsep : ascii := "."%char.

(** [os.path.splitext] *)
Definition splitext (p : string) : string * string :=
  let sepIndex := rfind sep p in
  let dotIndex := rfind extsep p in
  if sepIndex <? dotIndex then
    let stem := String.substring (Z.to_nat (sepIndex + 1))
                  (Z.to_nat (dotIndex - (sepIndex + 1))) p in
    if all_chars (fun c => Ascii.eqb c extsep) stem then (p, EmptyString)
    else (take dotIndex p, drop dotIndex p)
  else (p, EmptyString).

(** One step of [os.path.join]. *)
Definition join2 (path b : string) : string :=
  if startswith_char sep b then b
  else if negb (truthy path) || endswith_char sep path then path ++ b
  else path ++ String sep b.

(** [os.path.join(a, *p)] *)
Definition join (a : string) (p : list string) : string := fold_left join2 p a.

(** [os.path.dirname] *)
Definition dirname (p : string) : string :=
  let i := rfind sep p + 1 in
  let head := take i p in
  if truthy head && negb (all_chars (fun c => Ascii.eqb c sep) head)
  then rstrip_char sep head else head.

(** The directories [os.makedirs(d, exist_ok=True)] makes sure exist: [d]
    and the chain of its parents. *)
Fixpoint parents (fuel : nat) (d : string) : list string :=
  match fuel with
  | O => []
  | S fuel' => if truthy d then d :: parents fuel' (dirname d) else []
  end.

Definition makedirs_chain (d : string) : list string :=
  parents (S (String.length d)) d.

End PosixPath.

Import PyStr.

(* ===================================================================== *)
(** ** models.py *)
(* ===================================================================== *)

(** Timestamps ([datetime]) are seconds on the server clock and dates
    ([date]) are day numbers. *)
Definition datetime := Z.
Definition date := Z.

Module Admin.
Record t := mk {
  id : Z;
  username : string;
  password_hash : string;
  created_at : datetime
}.
End Admin.

Module CrewMember.
Record t := mk {
  id : Z;
  name : string;
  rank : string;
  passport : string;
  nationality : string;
  date_of_birth : option date;
  years_experience : option Z;
  last_vessel_type : string;
  availability_date : option date;
  passport_file : option string;
  cdc_file : option string;
  resume_file : option string;
  photo_file : option string;
  status : Z;
  created_at : datetime;
  updated_at : datetime
}.

Definition status_names : list string :=
  ["Registered"; "Screening"; "Documents Verified"; "Approved"].

(** [get_status_name]: [None] stands for a raised [IndexError]. *)
Definition get_status_name (self : t) : option string :=
  if (0 <=? status self) && (status self <? Z.of_nat (List.length status_names))
  then py_index status_names (status self)
  else Some "Unknown".

(** The row after [self.status = s] has been flushed at time [now]: the
    ORM issues an UPDATE, and with it refreshes [updated_at]
    ([onupdate=datetime.utcnow]), only when the value differs from the
    loaded one. *)
Definition set_status (s : Z) (now : datetime) (self : t) : t :=
  if status self =? s then self
  else mk (id self) (name self) (rank self) (passport self)
          (nationality self) (date_of_birth self) (years_experience self)
          (last_vessel_type self) (availability_date self)
          (passport_file self) (cdc_file self) (resume_file self)
          (photo_file self) s (created_at self) now.
End CrewMember.

Module StaffMember.
Record t := mk {
  id : Z;
  full_name : string;
  email_or_whatsapp : string;
  position_applying : string;
  department : string;
  years_experience : option Z;
  current_employer : string;
  location : string;
  availability_date : option date;
  resume_file : option string;
  photo_file : option string;
  status : Z;
  created_at : datetime;
  updated_at : datetime
}.

Definition get_status_name (self : t) : string :=
  if status self =? 1 then "Screening"
  else if status self =? 3 then "Approved"
  else if status self =? -1 then "Rejected"
  else "Unknown".

Definition set_status (s : Z) (now : datetime) (self : t) : t :=
  if status self =? s then self
  else mk (id self) (full_name self) (email_or_whatsapp self)
          (position_applying self) (department self) (years_experience self)
          (current_employer self) (location self) (availability_date self)
          (resume_file self) (photo_file self) s (created_at self) now.
End StaffMember.

(* ===================================================================== *)
(** ** The database session *)
(* ===================================================================== *)

Record DB := mkDB {
  admins : list Admin.t;
  crew_members : list CrewMember.t;
  staff_members : list StaffMember.t
}.

Definition empty_db : DB := mkDB [] [] [].

(** The next value of an auto-increment primary key. *)
Definition next_id (ids : list Z) : Z := fold_right Z.max 0 ids + 1.

Module Query.

(** [CrewMember.query.filter_by(passport=p).first()] *)
Definition crew_by_passport (d : DB) (p : string) : option CrewMember.t :=
  find (fun c => String.eqb (CrewMember.passport c) p) (crew_members d).

(** [Admin.query.filter_by(username=u).first()] *)
Definition admin_by_username (d : DB) (u : string) : option Admin.t :=
  find (fun a => String.eqb (Admin.username a) u) (admins d).

(** [CrewMember.query.get(i)]; [get_or_404] aborts on [None]. *)
Definition get_crew (d : DB) (i : Z) : option CrewMember.t :=
  find (fun c => CrewMember.id c =? i) (crew_members d).

Definition get_staff (d : DB) (i : Z) : option StaffMember.t :=
  find (fun s => StaffMember.id s =? i) (staff_members d).

End Query.

(** [db.session.add(row); db.session.commit()]: the row gets the next id and
    the column defaults; [None] is the [IntegrityError] of a violated
    [unique=True]. *)
Definition insert_admin (now : datetime) (u h : string) (d : DB) : option DB :=
  match Query.admin_by_username d u with
  | Some _ => None
  | None =>
      let row := Admin.mk (next_id (map Admin.id (admins d))) u h now in
      Some (mkDB (admins d ++ [row]) (crew_members d) (staff_members d))
  end.

Definition insert_crew (now : datetime)
    (row : Z -> datetime -> datetime -> CrewMember.t) (d : DB)
    : option (CrewMember.t * DB) :=
  let c := row (next_id (map CrewMember.id (crew_members d))) now now in
  match Query.crew_by_passport d (CrewMember.passport c) with
  | Some _ => None
  | None => Some (c, mkDB (admins d) (crew_members d ++ [c]) (staff_members d))
  end.

Definition insert_staff (now : datetime)
    (row : Z -> datetime -> datetime -> StaffMember.t) (d : DB)
    : StaffMember.t * DB :=
  let s := row (next_id (map StaffMember.id (staff_members d))) now now in
  (s, mkDB (admins d) (crew_members d) (staff_members d ++ [s])).

(** The commit of [crew.status = s] on the row loaded under primary key [i]. *)
Definition commit_crew_status (now : datetime) (i s : Z) (d : DB) : DB :=
  mkDB (admins d)
       (map (fun c => if CrewMember.id c =? i
                      then CrewMember.set_status s now c else c)
            (crew_members d))
       (staff_members d).

Definition commit_staff_status (now : datetime) (i s : Z) (d : DB) : DB :=
  mkDB (admins d) (crew_members d)
       (map (fun m => if StaffMember.id m =? i
                      then StaffMember.set_status s now m else m)
            (staff_members d)).

(* ===================================================================== *)
(** ** Requests, sessions and the world *)
(* ===================================================================== *)

(** A value stored in the Flask [session]. *)
Inductive SVal :=
| SBool (b : bool)
| SStr (s : string).

Definition sval_truthy (v : SVal) : bool :=
  match v with SBool b => b | SStr s => truthy s end.

(** A werkzeug [FileStorage]: the client's file name and the bytes sent. *)
Record FileStorage := mkFile {
  filename : string;
  stream : string
}.

(** The upload folder: the directories that exist and the files by path. *)
Record FS := mkFS {
  dirs : gset string;
  files : gmap string string
}.

Record World := mkWorld {
  db : DB;
  fs : FS;
  utcnow : datetime
}.

Inductive Method := GET | POST.

Record Request := mkRequest {
  method : Method;
  form : gmap string string;
  uploads : gmap string FileStorage
}.

(** [request.form.get(k, '')] *)
Definition form_get (r : Request) (k : string) : string :=
  default "" (form r !! k).

(** What a template is rendered with: the keyword arguments that carry
    records. *)
Record Context := mkContext {
  ctx_crew : option CrewMember.t;
  ctx_staff : option StaffMember.t;
  ctx_not_found : bool
}.

Definition no_context : Context := mkContext None None false.

Inductive Response :=
| render_template (template : string) (ctx : Context)
| redirect (endpoint : string)
| abort (code : Z)
| unhandled (exception : string).

(** A flashed message and its category. *)
Definition Flash : Type := string * string.

Record Result := mkResult {
  response : Response;
  flashed : list Flash;
  world : World;
  session : gmap string SVal
}.

(** The library functions the handlers call. *)
Class Runtime := {
  (** [werkzeug.utils.secure_filename] *)
  secure_filename : string -> string;
  (** [datetime.now().strftime('%Y%m%d_%H%M%S')] at server time [t] *)
  strftime_stamp : datetime -> string;
  (** [datetime.strptime(s, '%Y-%m-%d').date()]; [None] is [ValueError] *)
  strptime_date : string -> option date;
  (** [int(s)]; [None] is [ValueError] *)
  int_of_str : string -> option Z;
  (** [werkzeug.security.generate_password_hash] *)
  generate_password_hash : string -> string;
  (** [werkzeug.security.check_password_hash(pwhash, password)] *)
  check_password_hash : string -> string -> bool
}.

(* ===================================================================== *)
(** ** app.py *)
(* ===================================================================== *)

Definition UPLOAD_FOLDER : string := "uploads".

Definition ALLOWED_EXTENSIONS : gset string :=
  {[ "pdf"; "doc"; "docx"; "jpg"; "jpeg"; "png" ]}.

Definition status_stages : list string :=
  ["Registered"; "Screening"; "Documents Verified"; "Approved"].

Definition status_colors : list string :=
  ["secondary"; "warning"; "info"; "success"].

(** [allowed_file]; the [and] does not evaluate [rsplit] without a dot. *)
Definition allowed_file (filename : string) : bool :=
  contains "." filename &&
  match nth_error (rsplit1 "." filename) 1 with
  | Some ext => bool_decide (lower ext ∈ ALLOWED_EXTENSIONS)
  | None => false
  end.

(** [file.save(path)] after [os.makedirs(dirname(path), exist_ok=True)]. *)
Definition save_at (path : string) (f : FileStorage) (s : FS) : FS :=
  mkFS (list_to_set (PosixPath.makedirs_chain (PosixPath.dirname path)) ∪ dirs s)
       (<[path := stream f]> (files s)).

(** [if x: v = parse(x)] with [v = None] before: the outer [None] is the
    [ValueError] of a failed conversion. *)
Definition convert {A : Type} (parse : string -> option A) (x : string)
    : option (option A) :=
  if truthy x then option_map Some (parse x) else Some None.

Section Handlers.
Context `{Runtime}.

(** [save_uploaded_file(file, folder, prefix)]: [file] is [None] when the
    form had no such part, and a [FileStorage] is falsy when its file name
    is empty. *)
Definition save_uploaded_file (file : option FileStorage) (folder prefix : string)
    (w : World) : option string * World :=
  match file with
  | Some f =>
      if truthy (filename f) && allowed_file (filename f) then
        let filename := secure_filename (filename f) in
        let '(name, ext) := PosixPath.splitext filename in
        let safe_filename :=
          prefix ++ "_" ++ name ++ "_" ++ strftime_stamp (utcnow w) ++ ext in
        let file_path := PosixPath.join UPLOAD_FOLDER [folder; safe_filename] in
        (Some safe_filename, mkWorld (db w) (save_at file_path f (fs w)) (utcnow w))
      else (None, w)
  | None => (None, w)
  end.

(** The start-up block: create the default admin if there is none. *)
Definition init_db (w : World) : World :=
  match admins (db w) with
  | [] =>
      match insert_admin (utcnow w) "admin" (generate_password_hash "admin123") (db w) with
      | Some d => mkWorld d (fs w) (utcnow w)
      | None => w (* not taken: the table is empty *)
      end
  | _ :: _ => w
  end.

(** [session.get('admin_logged_in', False)] *)
Definition is_admin_logged_in (s : gmap string SVal) : SVal :=
  default (SBool false) (s !! "admin_logged_in").

(** [require_admin]: the redirect and its flash, or [None]. *)
Definition require_admin (s : gmap string SVal) : option (Response * list Flash) :=
  if negb (sval_truthy (is_admin_logged_in s))
  then Some (redirect "admin_login",
             [("Please log in to access the admin dashboard.", "warning")])
  else None.

Definition register (r : Request) (w : World) (s : gmap string SVal) : Result :=
  match method r with
  | POST =>
      let name := strip (form_get r "name") in
      let rank := strip (form_get r "rank") in
      let passport := strip (form_get r "passport") in
      let nationality := strip (form_get r "nationality") in
      let dob := form_get r "date_of_birth" in
      let years_exp := form_get r "years_experience" in
      let vessel_type := strip (form_get r "last_vessel_type") in
      let availability := form_get r "availability_date" in
      if negb (truthy name) || negb (truthy rank) || negb (truthy passport) then
        mkResult (render_template "register.html" no_context)
                 [("Name, rank, and passport are required fields.", "danger")] w s
      else
        match Query.crew_by_passport (db w) (upper passport) with
        | Some _ =>
            mkResult (render_template "register.html" no_context)
                     [("A crew member with this passport number already exists.", "danger")]
                     w s
        | None =>
            match convert strptime_date dob, convert strptime_date availability,
                  convert int_of_str years_exp with
            | Some date_of_birth, Some availability_date, Some years_experience =>
                let hint := replace " " "_" name in
                let '(passport_file, w1) :=
                  save_uploaded_file (uploads r !! "passport_file") "crew" (hint ++ "_passport") w in
                let '(cdc_file, w2) :=
                  save_uploaded_file (uploads r !! "cdc_file") "crew" (hint ++ "_cdc") w1 in
                let '(resume_file, w3) :=
                  save_uploaded_file (uploads r !! "resume_file") "crew" (hint ++ "_resume") w2 in
                let '(photo_file, w4) :=
                  save_uploaded_file (uploads r !! "photo_file") "crew" (hint ++ "_photo") w3 in
                let new_crew i created updated :=
                  CrewMember.mk i name rank (upper passport) nationality
                    date_of_birth years_experience vessel_type availability_date
                    passport_file cdc_file resume_file photo_file 0 created updated in
                match insert_crew (utcnow w4) new_crew (db w4) with
                | Some (c, d) =>
                    mkResult (render_template "thankyou.html" (mkContext (Some c) None false))
                             [("Registration completed successfully!", "success")]
                             (mkWorld d (fs w4) (utcnow w4)) s
                | None => mkResult (unhandled "IntegrityError") [] w4 s
                end
            | _, _, _ =>
                mkResult (render_template "register.html" no_context)
                         [("Please check date formats and numeric values.", "danger")] w s
            end
        end
  | GET => mkResult (render_template "register.html" no_context) [] w s
  end.

Definition register_staff (r : Request) (w : World) (s : gmap string SVal) : Result :=
  match method r with
  | POST =>
      let full_name := strip (form_get r "full_name") in
      let email_or_whatsapp := strip (form_get r "email_or_whatsapp") in
      let position_applying := strip (form_get r "position_applying") in
      let department := strip (form_get r "department") in
      let years_exp := form_get r "years_experience" in
      let current_employer := strip (form_get r "current_employer") in
      let location := strip (form_get r "location") in
      let availability := form_get r "availability_date" in
      if negb (truthy full_name) || negb (truthy email_or_whatsapp)
         || negb (truthy position_applying) || negb (truthy department) then
        mkResult (render_template "register_staff.html" no_context)
                 [("Name, contact, position, and department are required fields.", "danger")]
                 w s
      else
        match convert strptime_date availability, convert int_of_str years_exp with
        | Some availability_date, Some years_experience =>
            let hint := replace " " "_" full_name in
            let '(resume_file, w1) :=
              save_uploaded_file (uploads r !! "resume_file") "staff" (hint ++ "_resume") w in
            let '(photo_file, w2) :=
              save_uploaded_file (uploads r !! "photo_file") "staff" (hint ++ "_photo") w1 in
            let new_staff i created updated :=
              StaffMember.mk i full_name email_or_whatsapp position_applying department
                years_experience current_employer location availability_date
                resume_file photo_file 1 created updated in
            let '(m, d) := insert_staff (utcnow w2) new_staff (db w2) in
            mkResult (render_template "thankyou_staff.html" (mkContext None (Some m) false))
                     [("Staff registration completed successfully!", "success")]
                     (mkWorld d (fs w2) (utcnow w2)) s
        | _, _ =>
            mkResult (render_template "register_staff.html" no_context)
                     [("Please check date formats and numeric values.", "danger")] w s
        end
  | GET => mkResult (render_template "register_staff.html" no_context) [] w s
  end.

(** [update_status]: everything after the admin check runs inside
    [try ... except Exception], which also catches the [NotFound] of
    [get_or_404] and an [IndexError] of the message lookup; the latter is
    raised after the commit, so the rollback undoes nothing. *)
Definition update_status (crew_id : Z) (w : World) (s : gmap string SVal) : Result :=
  match require_admin s with
  | Some (redirect_response, msgs) => mkResult redirect_response msgs w s
  | None =>
      let error w' :=
        mkResult (redirect "dashboard") [("Error updating status.", "danger")] w' s in
      match Query.get_crew (db w) crew_id with
      | None => error w
      | Some crew_member =>
          if CrewMember.status crew_member <? Z.of_nat (List.length status_stages) - 1 then
            let status' := CrewMember.status crew_member + 1 in
            let w' := mkWorld (commit_crew_status (utcnow w) crew_id status' (db w))
                              (fs w) (utcnow w) in
            match py_index status_stages status' with
            | Some stage =>
                mkResult (redirect "dashboard")
                         [("Status updated to " ++ stage ++ " for "
                             ++ CrewMember.name crew_member, "success")] w' s
            | None => error w'
            end
          else
            mkResult (redirect "dashboard")
                     [("Crew member is already at final status.", "info")] w s
      end
  end.

Definition track (r : Request) (w : World) (s : gmap string SVal) : Result :=
  match method r with
  | POST =>
      let passport := upper (strip (form_get r "passport")) in
      if negb (truthy passport) then
        mkResult (render_template "tracker.html" no_context)
                 [("Please enter a passport number.", "warning")] w s
      else
        match Query.crew_by_passport (db w) passport with
        | Some crew_member =>
            mkResult (render_template "tracker.html" (mkContext (Some crew_member) None false))
                     [] w s
        | None =>
            mkResult (render_template "tracker.html" (mkContext None None true))
                     [("No crew member found with this passport number.", "danger")] w s
        end
  | GET => mkResult (render_template "tracker.html" no_context) [] w s
  end.

Definition admin_login (r : Request) (w : World) (s : gmap string SVal) : Result :=
  match method r with
  | POST =>
      let username := strip (form_get r "username") in
      let password := form_get r "password" in
      if negb (truthy username) || negb (truthy password) then
        mkResult (render_template "admin_login.html" no_context)
                 [("Please enter both username and password.", "danger")] w s
      else
        let invalid :=
          mkResult (render_template "admin_login.html" no_context)
                   [("Invalid username or password.", "danger")] w s in
        match Query.admin_by_username (db w) username with
        | Some admin =>
            if check_password_hash (Admin.password_hash admin) password then
              mkResult (redirect "dashboard")
                       [("Welcome back, " ++ username ++ "!", "success")] w
                       (<["admin_username" := SStr username]>
                          (<["admin_logged_in" := SBool true]> s))
            else invalid
        | None => invalid
        end
  | GET =>
      if sval_truthy (is_admin_logged_in s)
      then mkResult (redirect "dashboard") [] w s
      else mkResult (render_template "admin_login.html" no_context) [] w s
  end.

Definition admin_logout (w : World) (s : gmap string SVal) : Result :=
  mkResult (redirect "public_home")
           [("You have been logged out successfully.", "info")] w
           (delete "admin_username" (delete "admin_logged_in" s)).

Definition crew_profile (crew_id : Z) (w : World) (s : gmap string SVal) : Result :=
  match require_admin s with
  | Some (redirect_response, msgs) => mkResult redirect_response msgs w s
  | None =>
      match Query.get_crew (db w) crew_id with
      | Some crew =>
          mkResult (render_template "crew_profile.html" (mkContext (Some crew) None false))
                   [] w s
      | None => mkResult (abort 404) [] w s
      end
  end.

Definition staff_profile (staff_id : Z) (w : World) (s : gmap string SVal) : Result :=
  match require_admin s with
  | Some (redirect_response, msgs) => mkResult redirect_response msgs w s
  | None =>
      match Query.get_staff (db w) staff_id with
      | Some staff =>
          mkResult (render_template "staff_profile.html" (mkContext None (Some staff) false))
                   [] w s
      | None => mkResult (abort 404) [] w s
      end
  end.

Definition approve_crew (crew_id : Z) (w : World) (s : gmap string SVal) : Result :=
  match require_admin s with
  | Some (redirect_response, msgs) => mkResult redirect_response msgs w s
  | None =>
      match Query.get_crew (db w) crew_id with
      | Some crew =>
          (* crew.status = 3; db.session.commit() *)
          let d := commit_crew_status (utcnow w) crew_id (3) (db w) in
          mkResult (redirect "dashboard")
                   [("Crew member " ++ CrewMember.name crew ++ " has been approved!", "success")]
                   (mkWorld d (fs w) (utcnow w)) s
      | None => mkResult (abort 404) [] w s
      end
  end.

Definition reject_crew (crew_id : Z) (w : World) (s : gmap string SVal) : Result :=
  match require_admin s with
  | Some (redirect_response, msgs) => mkResult redirect_response msgs w s
  | None =>
      match Query.get_crew (db w) crew_id with
      | Some crew =>
          (* crew.status = -1; db.session.commit() *)
          let d := commit_crew_status (utcnow w) crew_id (-1) (db w) in
          mkResult (redirect "dashboard")
                   [("Crew member " ++ CrewMember.name crew ++ " has been rejected.", "warning")]
                   (mkWorld d (fs w) (utcnow w)) s
      | None => mkResult (abort 404) [] w s
      end
  end.

Definition approve_staff (staff_id : Z) (w : World) (s : gmap string SVal) : Result :=
  match require_admin s with
  | Some (redirect_response, msgs) => mkResult redirect_response msgs w s
  | None =>
      match Query.get_staff (db w) staff_id with
      | Some staff =>
          (* staff.status = 3; db.session.commit() *)
          let d := commit_staff_status (utcnow w) staff_id (3) (db w) in
          mkResult (redirect "dashboard")
                   [("Staff member " ++ StaffMember.full_name staff ++ " has been approved!", "success")]
                   (mkWorld d (fs w) (utcnow w)) s
      | None => mkResult (abort 404) [] w s
      end
  end.

Definition reject_staff (staff_id : Z) (w : World) (s : gmap string SVal) : Result :=
  match require_admin s with
  | Some (redirect_response, msgs) => mkResult redirect_response msgs w s
  | None =>
      match Query.get_staff (db w) staff_id with
      | Some staff =>
          (* staff.status = -1; db.session.commit() *)
          let d := commit_staff_status (utcnow w) staff_id (-1) (db w) in
          mkResult (redirect "dashboard")
                   [("Staff member " ++ StaffMember.full_name staff ++ " has been rejected.", "warning")]
                   (mkWorld d (fs w) (utcnow w)) s
      | None => mkResult (abort 404) [] w s
      end
  end.

(** The routes that read or write records.  The remaining ones
    ([public_home], [dashboard], [download_file], [home_redirect]) only
    render or read. *)
Inductive Route :=
| Register (r : Request)
| RegisterStaff (r : Request)
| UpdateStatus (crew_id : Z)
| Track (r : Request)
| AdminLogin (r : Request)
| AdminLogout
| CrewProfile (crew_id : Z)
| StaffProfile (staff_id : Z)
| ApproveCrew (crew_id : Z)
| RejectCrew (crew_id : Z)
| ApproveStaff (staff_id : Z)
| RejectStaff (staff_id : Z).

Definition handle (rt : Route) : World -> gmap string SVal -> Result :=
  match rt with
  | Register r => register r
  | RegisterStaff r => register_staff r
  | UpdateStatus i => update_status i
  | Track r => track r
  | AdminLogin r => admin_login r
  | AdminLogout => admin_logout
  | CrewProfile i => crew_profile i
  | StaffProfile i => staff_profile i
  | ApproveCrew i => approve_crew i
  | RejectCrew i => reject_crew i
  | ApproveStaff i => approve_staff i
  | RejectStaff i => reject_staff i
  end.

(** The worlds the application can be in: it starts on empty tables and an
    empty upload folder, the clock moves on, and any client, with any
    session, may call any route. *)
Inductive reachable : World -> Prop :=
| reach_start (now : datetime) :
    reachable (init_db (mkWorld empty_db (mkFS ∅ ∅) now))
| reach_tick (w : World) (t : datetime) :
    reachable w -> utcnow w <= t -> reachable (mkWorld (db w) (fs w) t)
| reach_handle (w : World) (rt : Route) (s : gmap string SVal) :
    reachable w -> reachable (world (handle rt w s)).

End Handlers.

(* ===================================================================== *)
(** ** The notions the statements use *)
(* ===================================================================== *)

(** A string that does not start with white space, as [lstrip] leaves it. *)
Definition starts_clean (s : string) : Prop :=
  match s with EmptyString => True | String c _ => is_space c = false end.

(** The session passes the admin gate. *)
Definition logged_in (s : gmap string SVal) : Prop :=
  sval_truthy (is_admin_logged_in s) = true.

(** The status of the crew record stored under id [i], if there is one. *)
Definition crew_status (w : World) (i : Z) : option Z :=
  option_map CrewMember.status (Query.get_crew (db w) i).

(** [n] calls of [update_status] on the same record. *)
Fixpoint advance_times (n : nat) (i : Z) (w : World) (s : gmap string SVal) : World :=
  match n with
  | O => w
  | S n' => world (update_status i (advance_times n' i w s) s)
  end.

(** Two crew rows that agree on every column but [status] and [updated_at]. *)
Definition crew_frame (c c' : CrewMember.t) : Prop :=
  CrewMember.id c' = CrewMember.id c /\
  CrewMember.name c' = CrewMember.name c /\
  CrewMember.rank c' = CrewMember.rank c /\
  CrewMember.passport c' = CrewMember.passport c /\
  CrewMember.nationality c' = CrewMember.nationality c /\
  CrewMember.date_of_birth c' = CrewMember.date_of_birth c /\
  CrewMember.years_experience c' = CrewMember.years_experience c /\
  CrewMember.last_vessel_type c' = CrewMember.last_vessel_type c /\
  CrewMember.availability_date c' = CrewMember.availability_date c /\
  CrewMember.passport_file c' = CrewMember.passport_file c /\
  CrewMember.cdc_file c' = CrewMember.cdc_file c /\
  CrewMember.resume_file c' = CrewMember.resume_file c /\
  CrewMember.photo_file c' = CrewMember.photo_file c /\
  CrewMember.created_at c' = CrewMember.created_at c.

Definition staff_frame (m m' : StaffMember.t) : Prop :=
  StaffMember.id m' = StaffMember.id m /\
  StaffMember.full_name m' = StaffMember.full_name m /\
  StaffMember.email_or_whatsapp m' = StaffMember.email_or_whatsapp m /\
  StaffMember.position_applying m' = StaffMember.position_applying m /\
  StaffMember.department m' = StaffMember.department m /\
  StaffMember.years_experience m' = StaffMember.years_experience m /\
  StaffMember.current_employer m' = StaffMember.current_employer m /\
  StaffMember.location m' = StaffMember.location m /\
  StaffMember.availability_date m' = StaffMember.availability_date m /\
  StaffMember.resume_file m' = StaffMember.resume_file m /\
  StaffMember.photo_file m' = StaffMember.photo_file m /\
  StaffMember.created_at m' = StaffMember.created_at m.

(** A call on crew record [i] took the world from [w] to [w']: the crew
    table has the same rows in the same order, the row of [i] changed at most
    in [status] and [updated_at], the other rows not at all, and neither did
    the other tables, the upload folder or the clock. *)
Definition crew_change_only (i : Z) (w w' : World) : Prop :=
  Forall2 (fun c c' => crew_frame c c' /\ (CrewMember.id c <> i -> c' = c))
          (crew_members (db w)) (crew_members (db w')) /\
  staff_members (db w') = staff_members (db w) /\
  admins (db w') = admins (db w) /\
  fs w' = fs w /\ utcnow w' = utcnow w.

Definition staff_change_only (i : Z) (w w' : World) : Prop :=
  Forall2 (fun m m' => staff_frame m m' /\ (StaffMember.id m <> i -> m' = m))
          (staff_members (db w)) (staff_members (db w')) /\
  crew_members (db w') = crew_members (db w) /\
  admins (db w') = admins (db w) /\
  fs w' = fs w /\ utcnow w' = utcnow w.

(** The extension of a file name: what follows its last dot, if it has one. *)
Fixpoint extension (s : string) : option string :=
  match s with
  | EmptyString => None
  | String a s' =>
      match extension s' with
      | Some e => Some e
      | None => if Ascii.eqb a "." then Some s' else None
      end
  end.

(** The names the store turns away: no dot, or an extension that in lower
    case is not an allowed one. *)
Definition rejected_name (name : string) : Prop :=
  contains "." name = false \/
  exists e, extension name = Some e /\ lower e ∉ ALLOWED_EXTENSIONS.

Definition invalid_credentials : list Flash :=
  [("Invalid username or password.", "danger")].

(** The form passes the checks of [register] that come before and after the
    duplicate check: the required fields are not blank, and the optional
    dates and the number convert. *)
Definition valid_crew_form `{Runtime} (r : Request) : Prop :=
  truthy (strip (form_get r "name")) = true /\
  truthy (strip (form_get r "rank")) = true /\
  truthy (strip (form_get r "passport")) = true /\
  is_Some (convert strptime_date (form_get r "date_of_birth")) /\
  is_Some (convert strptime_date (form_get r "availability_date")) /\
  is_Some (convert int_of_str (form_get r "years_experience")).




(** The passport column of the crew table. *)
Definition passports (w : World) : list string :=
  map CrewMember.passport (crew_members (db w)).



(* ===================================================================== *)
(** ** Closed examples *)
(* ===================================================================== *)

(** A runtime to run the handlers on concrete requests: file names are kept
    as they are, the clock prints as a fixed stamp, no date or number
    parses, and a hash is the password behind a marker. *)
Definition plain_runtime : Runtime := {|
  secure_filename := fun s => s;
  strftime_stamp := fun _ => "20240101_000000";
  strptime_date := fun _ => None;
  int_of_str := fun _ => None;
  generate_password_hash := fun p => "plain$" ++ p;
  check_password_hash := fun h p => String.eqb h ("plain$" ++ p)
|}.

(** The world right after start-up, at time 100. *)
Definition fresh_world : World :=
  @init_db plain_runtime (mkWorld empty_db (mkFS ∅ ∅) 100).

Definition login_form (username password : string) : Request :=
  mkRequest POST (list_to_map [("username", username); ("password", password)]) ∅.

(** The session of a client after logging in as the seeded admin. *)
Definition admin_session : gmap string SVal :=
  session (@admin_login plain_runtime (login_form "admin" "admin123") fresh_world ∅).

Definition jane_form (passport : string) : Request :=
  mkRequest POST
    (list_to_map [("name", "Jane Doe"); ("rank", "Captain"); ("passport", passport)])
    ∅.

(** The world after Jane Doe has registered with passport [ab123]. *)
Definition jane_world : World :=
  world (@register plain_runtime (jane_form "ab123") fresh_world ∅).

(** Jane Doe's row at status [s]. *)
Definition jane_record (s : Z) : CrewMember.t :=
  CrewMember.mk 1 "Jane Doe" "Captain" "AB123" "" None None "" None
                None None None None s 100 100.

(** The world after an admin has then rejected Jane Doe. *)
Definition rejected_world : World :=
  world (reject_crew 1 jane_world admin_session).

(** The world after an admin has instead approved her. *)
Definition approved_world : World :=
  world (approve_crew 1 jane_world admin_session).



(* ===================================================================== *)
(** ** app.py: the dashboard, downloads and the public pages *)
(* ===================================================================== *)

(** [query.order_by(column.desc()).all()]: the rows, latest first.  The
    order among rows with equal keys is left to the engine; here the row
    inserted later comes first. *)
Fixpoint insert_desc {A : Type} (key : A -> Z) (a : A) (l : list A) : list A :=
  match l with
  | [] => [a]
  | b :: l' => if key a <? key b then b :: insert_desc key a l' else a :: l
  end.

Definition order_by_desc {A : Type} (key : A -> Z) (l : list A) : list A :=
  fold_left (fun sorted a => insert_desc key a sorted) l [].

(** What [dashboard] hands to its template. *)
Record Dashboard := mkDashboard {
  dash_crew : list CrewMember.t;
  dash_staff : list StaffMember.t;
  crew_by_status : gmap string (list CrewMember.t);
  staff_by_status : gmap string (list StaffMember.t);
  stats : gmap string Z
}.

Definition dashboard (w : World) (s : gmap string SVal) : Result * option Dashboard :=
  match require_admin s with
  | Some (redirect_response, msgs) => (mkResult redirect_response msgs w s, None)
  | None =>
      let crew_members := order_by_desc CrewMember.created_at (crew_members (db w)) in
      let staff_members := order_by_desc StaffMember.created_at (staff_members (db w)) in
      let len {A : Type} (l : list A) : Z := Z.of_nat (List.length l) in
      let total_registrations := len crew_members + len staff_members in
      let crew_in_screening :=
        len (List.filter (fun c => CrewMember.status c =? 1) crew_members) in
      let staff_in_screening :=
        len (List.filter (fun m => StaffMember.status m =? 1) staff_members) in
      let approved_profiles :=
        len (List.filter (fun c => CrewMember.status c =? 3) crew_members)
        + len (List.filter (fun m => StaffMember.status m =? 3) staff_members) in
      let crew_by_status : gmap string (list CrewMember.t) :=
        <["approved" := List.filter (fun c => CrewMember.status c =? 3) crew_members]>
          (<["screening" := List.filter (fun c => CrewMember.status c =? 1) crew_members]> ∅) in
      let staff_by_status : gmap string (list StaffMember.t) :=
        <["approved" := List.filter (fun m => StaffMember.status m =? 3) staff_members]>
          (<["screening" := List.filter (fun m => StaffMember.status m =? 1) staff_members]> ∅) in
      let stats : gmap string Z :=
        <["approved_profiles" := approved_profiles]>
          (<["staff_in_screening" := staff_in_screening]>
             (<["crew_in_screening" := crew_in_screening]>
                (<["total_registrations" := total_registrations]> ∅))) in
      (mkResult (render_template "dashboard.html" no_context) [] w s,
       Some (mkDashboard crew_members staff_members crew_by_status staff_by_status stats))
  end.

(** The answer of [download_file]: the redirect of the admin gate, or the
    call [send_from_directory(directory, filename)] it returns. *)
Inductive Download :=
| download_refused (res : Result)
| send_from_directory (directory filename : string).

Definition download_file (folder filename : string) (w : World)
    (s : gmap string SVal) : Download :=
  match require_admin s with
  | Some (_, msgs) =>
      download_refused
        (mkResult (redirect "admin_login")
           (msgs ++ [("Admin access required to download files.", "warning")])%list w s)
  | None => send_from_directory (PosixPath.join UPLOAD_FOLDER [folder]) filename
  end.

Definition public_home (w : World) (s : gmap string SVal) : Result :=
  mkResult (render_template "public_home.html" no_context) [] w s.

Definition home_redirect (w : World) (s : gmap string SVal) : Result :=
  mkResult (redirect "public_home") [] w s.

(* ===================================================================== *)
(** ** The notions the further statements use *)
(* ===================================================================== *)

(** The answer of the admin gate to a session that is not logged in. *)
Definition gate_refusal (w : World) (s : gmap string SVal) : Result :=
  mkResult (redirect "admin_login")
           [("Please log in to access the admin dashboard.", "warning")] w s.

Definition staff_status (w : World) (i : Z) : option Z :=
  option_map StaffMember.status (Query.get_staff (db w) i).

(** The staff form passes the checks of [register_staff]. *)
Definition valid_staff_form `{Runtime} (r : Request) : Prop :=
  truthy (strip (form_get r "full_name")) = true /\
  truthy (strip (form_get r "email_or_whatsapp")) = true /\
  truthy (strip (form_get r "position_applying")) = true /\
  truthy (strip (form_get r "department")) = true /\
  is_Some (convert strptime_date (form_get r "availability_date")) /\
  is_Some (convert int_of_str (form_get r "years_experience")).

(** One commit: what a single request can do to the tables.  It leaves them
    alone, appends one crew row (status 0, a passport no row has, made from
    what was typed) or one staff row (status 1) under the next id, or sets
    the status of the rows under one id: to 3, to -1 or, for a crew row
    below 3, to its status plus one. *)
Inductive db_step (d : DB) : DB -> Prop :=
| step_none : db_step d d
| step_crew_insert (c : CrewMember.t) (typed : string) :
    CrewMember.id c = next_id (map CrewMember.id (crew_members d)) ->
    CrewMember.status c = 0 ->
    Query.crew_by_passport d (CrewMember.passport c) = None ->
    CrewMember.passport c = upper (strip typed) ->
    truthy (strip typed) = true ->
    db_step d (mkDB (admins d) (crew_members d ++ [c])%list (staff_members d))
| step_staff_insert (m : StaffMember.t) :
    StaffMember.id m = next_id (map StaffMember.id (staff_members d)) ->
    StaffMember.status m = 1 ->
    db_step d (mkDB (admins d) (crew_members d) (staff_members d ++ [m])%list)
| step_crew_force (now : datetime) (i st : Z) :
    st = 3 \/ st = -1 ->
    db_step d (commit_crew_status now i st d)
| step_crew_advance (now : datetime) (i : Z) (c : CrewMember.t) :
    Query.get_crew d i = Some c ->
    CrewMember.status c < 3 ->
    db_step d (commit_crew_status now i (CrewMember.status c + 1) d)
| step_staff_force (now : datetime) (i st : Z) :
    st = 3 \/ st = -1 ->
    db_step d (commit_staff_status now i st d).

(** The tables as the application keeps them: primary keys are positive and
    distinct, a crew status is one of -1, 0, 1, 2, 3 and a staff status one
    of -1, 1, 3. *)
Definition crew_status_ok (c : CrewMember.t) : Prop :=
  -1 <= CrewMember.status c <= 3.

Definition staff_status_ok (m : StaffMember.t) : Prop :=
  StaffMember.status m = -1 \/ StaffMember.status m = 1 \/ StaffMember.status m = 3.

Definition keys_ok (ids : list Z) : Prop :=
  List.NoDup ids /\ Forall (fun i => 1 <= i) ids.

(** A passport as the crew table keeps it: upper-case, trimmed, not empty. *)
Definition normalised (p : string) : Prop :=
  upper p = p /\ strip p = p /\ p <> "".

Definition tables_ok (d : DB) : Prop :=
  keys_ok (map CrewMember.id (crew_members d)) /\
  keys_ok (map StaffMember.id (staff_members d)) /\
  Forall crew_status_ok (crew_members d) /\
  Forall staff_status_ok (staff_members d).

(** [evolves w w']: the world [w'] comes from [w] by any number of requests
    and clock ticks. *)
Inductive evolves `{Runtime} (w : World) : World -> Prop :=
| evolves_refl : evolves w w
| evolves_tick (w' : World) (t : datetime) :
    evolves w w' -> utcnow w' <= t -> evolves w (mkWorld (db w') (fs w') t)
| evolves_handle (w' : World) (rt : Route) (s : gmap string SVal) :
    evolves w w' -> evolves w (world (handle rt w' s)).

(** The file references of a record, and what it means for one to name a
    file that is in the upload folder under the record's category. *)
Definition crew_refs (c : CrewMember.t) : list (option string) :=
  [CrewMember.passport_file c; CrewMember.cdc_file c;
   CrewMember.resume_file c; CrewMember.photo_file c].

Definition staff_refs (m : StaffMember.t) : list (option string) :=
  [StaffMember.resume_file m; StaffMember.photo_file m].

Definition stored_in (s : FS) (folder : string) (ref : option string) : Prop :=
  match ref with
  | Some n => is_Some (files s !! PosixPath.join UPLOAD_FOLDER [folder; n])
  | None => True
  end.

Definition refs_ok (w : World) : Prop :=
  Forall (fun c => Forall (stored_in (fs w) "crew") (crew_refs c)) (crew_members (db w)) /\
  Forall (fun m => Forall (stored_in (fs w) "staff") (staff_refs m)) (staff_members (db w)).

(** No file of [s] is missing from [s']. *)
Definition grows (s s' : FS) : Prop :=
  forall p, is_Some (files s !! p) -> is_Some (files s' !! p).

(** The administrator the start-up block creates. *)
Definition default_admin `{Runtime} (now : datetime) : Admin.t :=
  Admin.mk 1 "admin" (generate_password_hash "admin123") now.

(** The number of rows a predicate holds of. *)
Definition count {A : Type} (p : A -> bool) (l : list A) : Z :=
  Z.of_nat (List.length (List.filter p l)).

(* ===================================================================== *)
(** ** Further closed examples *)
(* ===================================================================== *)

Definition ann_form : Request :=
  mkRequest POST
    (list_to_map [("full_name", "Ann Lee"); ("email_or_whatsapp", "ann@example.org");
                  ("position_applying", "Crewing Officer"); ("department", "Crewing")])
    (list_to_map [("resume_file", mkFile "cv.docx" "bytes")]).

(** The world after Ann Lee has applied as staff. *)
Definition ann_world : World :=
  world (@register_staff plain_runtime ann_form fresh_world ∅).

(** A crew form with an accepted and a rejected attachment. *)
Definition scan_form : Request :=
  mkRequest POST
    (list_to_map [("name", "Jane Doe"); ("rank", "Captain"); ("passport", "ab123")])
    (list_to_map [("passport_file", mkFile "scan.PDF" "pdf bytes");
                  ("photo_file", mkFile "me.exe" "exe bytes")]).

(** The world after Jane Doe has registered with these attachments. *)
Definition scan_world : World :=
  world (@register plain_runtime scan_form fresh_world ∅).


(* ===================================================================== *)
(** ** Facts about the string functions *)
(* ===================================================================== *)

Section StringFacts.

Lemma truthy_map_chars (f : ascii -> ascii) (s : string) :
  truthy (map_chars f s) = truthy s.
Proof. now destruct s. Qed.

Lemma is_space_upper_char (c : ascii) : is_space (upper_char c) = is_space c.
Proof.
  destruct c as [[] [] [] [] [] [] [] []]; vm_compute; reflexivity.
Qed.

Lemma upper_lstrip (s : string) : upper (lstrip s) = lstrip (upper s).
Proof.
  induction s as [|c s IH]; simpl; [reflexivity|].
  rewrite is_space_upper_char. destruct (is_space c); [exact IH | reflexivity].
Qed.

Lemma upper_rstrip (s : string) : upper (rstrip s) = rstrip (upper s).
Proof.
  induction s as [|c s IH]; simpl; [reflexivity|].
  unfold upper in IH. rewrite <- IH, is_space_upper_char.
  destruct (rstrip s) as [|a r]; simpl.
  - destruct (is_space c); reflexivity.
  - reflexivity.
Qed.

(** Upper-casing commutes with trimming. *)
Lemma upper_strip (s : string) : upper (strip s) = strip (upper s).
Proof. unfold strip. now rewrite upper_rstrip, upper_lstrip. Qed.

Lemma rstrip_idem (s : string) : rstrip (rstrip s) = rstrip s.
Proof.
  induction s as [|c s IH]; simpl; [reflexivity|].
  destruct (rstrip s) as [|a r] eqn:E.
  - destruct (is_space c) eqn:Ec; simpl; [reflexivity | now rewrite Ec].
  - simpl in *. destruct (rstrip r) as [|a' r'] eqn:E'.
    + destruct (is_space a); [discriminate IH | now rewrite IH].
    + now rewrite IH.
Qed.

Lemma lstrip_starts_clean (s : string) : starts_clean (lstrip s).
Proof.
  induction s as [|c s IH]; simpl; [exact I|].
  destruct (is_space c) eqn:E; [exact IH | exact E].
Qed.

Lemma lstrip_clean (s : string) : starts_clean s -> lstrip s = s.
Proof. destruct s as [|c s]; simpl; [reflexivity | now intros ->]. Qed.

Lemma rstrip_starts_clean (s : string) : starts_clean s -> starts_clean (rstrip s).
Proof.
  destruct s as [|c s]; simpl; [trivial|]. intros E.
  destruct (rstrip s); simpl; [now rewrite E | exact E].
Qed.

Lemma strip_idem (s : string) : strip (strip s) = strip s.
Proof.
  unfold strip.
  rewrite (lstrip_clean (rstrip (lstrip s))).
  - apply rstrip_idem.
  - apply rstrip_starts_clean, lstrip_starts_clean.
Qed.



End StringFacts.

(* ===================================================================== *)
(** ** Facts about the tables *)
(* ===================================================================== *)

Section TableFacts.

Lemma crew_set_status_id s now c :
  CrewMember.id (CrewMember.set_status s now c) = CrewMember.id c.
Proof. unfold CrewMember.set_status. now destruct (_ =? _). Qed.

Lemma crew_set_status_status s now c :
  CrewMember.status (CrewMember.set_status s now c) = s.
Proof.
  unfold CrewMember.set_status.
  destruct (CrewMember.status c =? s) eqn:E; [now apply Z.eqb_eq | reflexivity].
Qed.

Lemma crew_set_status_passport s now c :
  CrewMember.passport (CrewMember.set_status s now c) = CrewMember.passport c.
Proof. unfold CrewMember.set_status. now destruct (_ =? _). Qed.

Lemma staff_set_status_id s now m :
  StaffMember.id (StaffMember.set_status s now m) = StaffMember.id m.
Proof. unfold StaffMember.set_status. now destruct (_ =? _). Qed.

Lemma staff_set_status_status s now m :
  StaffMember.status (StaffMember.set_status s now m) = s.
Proof.
  unfold StaffMember.set_status.
  destruct (StaffMember.status m =? s) eqn:E; [now apply Z.eqb_eq | reflexivity].
Qed.

(** Reading a row back, by its key, from a table updated under that key. *)
Lemma find_updated {A : Type} (key : A -> Z) (f : A -> A) (i : Z) (l : list A) :
  (forall a, key (f a) = key a) ->
  find (fun a => key a =? i) (map (fun a => if key a =? i then f a else a) l)
  = option_map f (find (fun a => key a =? i) l).
Proof.
  intros Hkey. induction l as [|a l IH]; simpl; [reflexivity|].
  destruct (key a =? i) eqn:E.
  - now rewrite Hkey, E.
  - now rewrite E.
Qed.

Lemma get_crew_commit now i s d :
  Query.get_crew (commit_crew_status now i s d) i
  = option_map (CrewMember.set_status s now) (Query.get_crew d i).
Proof.
  unfold Query.get_crew, commit_crew_status. simpl.
  apply find_updated. intros a. apply crew_set_status_id.
Qed.

Lemma get_staff_commit now i s d :
  Query.get_staff (commit_staff_status now i s d) i
  = option_map (StaffMember.set_status s now) (Query.get_staff d i).
Proof.
  unfold Query.get_staff, commit_staff_status. simpl.
  apply find_updated. intros a. apply staff_set_status_id.
Qed.

End TableFacts.

(* ===================================================================== *)
(** ** The status label *)
(* ===================================================================== *)

(** C7.  [CrewMember.get_status_name] returns a label for every integer
    status, without raising: the four stage names for 0, 1, 2 and 3, and
    ["Unknown"] for every other integer, among them -1 and 99. *)
Theorem get_status_name_total (c : CrewMember.t) :
  CrewMember.get_status_name c =
  Some match CrewMember.status c with
       | 0 => "Registered"
       | 1 => "Screening"
       | 2 => "Documents Verified"
       | 3 => "Approved"
       | _ => "Unknown"
       end.
Proof.
  unfold CrewMember.get_status_name.
  destruct (CrewMember.status c) as [|p|p]; simpl; try reflexivity.
  destruct p as [[[|p|]|[|p|]|]|[[|p|]|[|p|]|]|]; reflexivity.
Qed.

(* ===================================================================== *)
(** ** The status pipeline *)
(* ===================================================================== *)

Section Pipeline.

Lemma require_admin_logged_in s : logged_in s -> require_admin s = None.
Proof. unfold logged_in, require_admin, is_admin_logged_in. now intros ->. Qed.

(** What [update_status] does to the status of the record it is called on. *)
Lemma update_status_status i w s c :
  logged_in s -> Query.get_crew (db w) i = Some c ->
  crew_status (world (update_status i w s)) i
  = Some (if CrewMember.status c <? 3 then CrewMember.status c + 1
          else CrewMember.status c).
Proof.
  intros Hs Hc. unfold update_status, crew_status.
  rewrite (require_admin_logged_in _ Hs), Hc.
  change (Z.of_nat (List.length status_stages) - 1) with 3.
  destruct (CrewMember.status c <? 3) eqn:E.
  - destruct (py_index status_stages (CrewMember.status c + 1));
      cbn [world db]; rewrite get_crew_commit, Hc; cbn [option_map];
      now rewrite crew_set_status_status.
  - cbn [world]. now rewrite Hc.
Qed.

Lemma advance_times_status n i w s c :
  logged_in s -> Query.get_crew (db w) i = Some c ->
  0 <= CrewMember.status c <= 3 ->
  crew_status (advance_times n i w s) i
  = Some (Z.min (CrewMember.status c + Z.of_nat n) 3).
Proof.
  intros Hs Hc Hr. induction n as [|n IH].
  - simpl. unfold crew_status. rewrite Hc. simpl. f_equal. lia.
  - cbn [advance_times]. unfold crew_status in IH.
    destruct (Query.get_crew (db (advance_times n i w s)) i) as [c'|] eqn:E;
      [|discriminate IH].
    rewrite (update_status_status _ _ _ _ Hs E). simpl in IH.
    injection IH as IH. rewrite IH. f_equal.
    destruct (_ <? 3) eqn:E3; [apply Z.ltb_lt in E3 | apply Z.ltb_ge in E3]; lia.
Qed.

(** C3.  Called by a logged-in admin on a crew record whose status is -1
    (Rejected), [update_status] stores status 0 (Registered) and reports the
    update as a success: the guard [status < 3] admits -1. *)
Theorem update_status_resurrects_rejected i w s c :
  logged_in s ->
  Query.get_crew (db w) i = Some c ->
  CrewMember.status c = -1 ->
  crew_status (world (update_status i w s)) i = Some 0 /\
  flashed (update_status i w s)
  = [("Status updated to Registered for " ++ CrewMember.name c, "success")].
Proof.
  intros Hs Hc Hst. split.
  - rewrite (update_status_status _ _ _ _ Hs Hc), Hst. reflexivity.
  - unfold update_status.
    rewrite (require_admin_logged_in _ Hs), Hc, Hst. reflexivity.
Qed.

(** C4.  For a logged-in admin and a crew record at status 0, 1 or 2,
    [update_status] stores the status plus one; at status 3 it changes
    nothing and flashes the "already at final status" notice; and [n] calls
    from status 0 leave the record at status [min n 3], that is
    0, 1, 2, 3, 3, ... *)
Theorem update_status_forward i w s c :
  logged_in s ->
  Query.get_crew (db w) i = Some c ->
  (0 <= CrewMember.status c <= 2 ->
     crew_status (world (update_status i w s)) i = Some (CrewMember.status c + 1)) /\
  (CrewMember.status c = 3 ->
     world (update_status i w s) = w /\
     response (update_status i w s) = redirect "dashboard" /\
     flashed (update_status i w s)
     = [("Crew member is already at final status.", "info")]) /\
  (CrewMember.status c = 0 ->
     forall n, crew_status (advance_times n i w s) i = Some (Z.min (Z.of_nat n) 3)).
Proof.
  intros Hs Hc. split; [|split].
  - intros Hr. rewrite (update_status_status _ _ _ _ Hs Hc).
    destruct (_ <? 3) eqn:E; [reflexivity | apply Z.ltb_ge in E; lia].
  - intros Hfinal. unfold update_status.
    rewrite (require_admin_logged_in _ Hs), Hc, Hfinal.
    repeat split.
  - intros Hzero n. rewrite (advance_times_status n _ _ _ _ Hs Hc) by lia.
    now rewrite Hzero.
Qed.

End Pipeline.

Lemma update_status_resurrects_rejected_witness :
  crew_status (world (update_status 1 rejected_world admin_session)) 1
  = Some 0 /\
  flashed (update_status 1 rejected_world admin_session)
  = [("Status updated to Registered for Jane Doe", "success")].
Proof.
  apply (update_status_resurrects_rejected 1 rejected_world
           admin_session (jane_record (-1))); vm_compute; reflexivity.
Defined.

(** C2.  The run the claim excludes: Jane Doe registers, an admin rejects
    her (status -1), and the admin's next [update_status] stores status 0 and
    flashes a success. *)
Theorem update_status_after_reject_example :
  crew_status rejected_world 1 = Some (-1) /\
  crew_status (world (update_status 1 rejected_world admin_session)) 1
  = Some 0 /\
  flashed (update_status 1 rejected_world admin_session)
  = [("Status updated to Registered for Jane Doe", "success")].
Proof. vm_compute. repeat split; reflexivity. Qed.

Lemma update_status_forward_witness :
  (0 <= 0 <= 2 ->
     crew_status (world (update_status 1 jane_world admin_session)) 1
     = Some (0 + 1)) /\
  crew_status (advance_times 5 1 jane_world admin_session) 1 = Some 3.
Proof.
  destruct (update_status_forward 1 jane_world admin_session (jane_record 0))
    as (Hstep & _ & Hrun); [vm_compute; reflexivity | vm_compute; reflexivity |].
  split; [exact Hstep | exact (Hrun eq_refl 5%nat)].
Defined.

(* ===================================================================== *)
(** ** Approve and reject *)
(* ===================================================================== *)

Section Forcing.

Lemma approve_crew_status i w s c :
  logged_in s -> Query.get_crew (db w) i = Some c ->
  crew_status (world (approve_crew i w s)) i = Some 3.
Proof.
  intros Hs Hc. unfold approve_crew, crew_status.
  rewrite (require_admin_logged_in _ Hs), Hc. cbn [world db].
  rewrite get_crew_commit, Hc. cbn [option_map].
  now rewrite crew_set_status_status.
Qed.

Lemma reject_crew_status i w s c :
  logged_in s -> Query.get_crew (db w) i = Some c ->
  crew_status (world (reject_crew i w s)) i = Some (-1).
Proof.
  intros Hs Hc. unfold reject_crew, crew_status.
  rewrite (require_admin_logged_in _ Hs), Hc. cbn [world db].
  rewrite get_crew_commit, Hc. cbn [option_map].
  now rewrite crew_set_status_status.
Qed.

(** C5.  For a logged-in admin and a crew record in any status,
    [approve_crew] stores status 3 and [reject_crew] stores status -1,
    whatever the status was; so [reject_crew] followed by [approve_crew]
    leaves the record at status 3. *)
Theorem reject_then_approve i w s c :
  logged_in s ->
  Query.get_crew (db w) i = Some c ->
  crew_status (world (approve_crew i w s)) i = Some 3 /\
  crew_status (world (reject_crew i w s)) i = Some (-1) /\
  crew_status (world (approve_crew i (world (reject_crew i w s)) s)) i = Some 3.
Proof.
  intros Hs Hc. split; [|split].
  - exact (approve_crew_status _ _ _ _ Hs Hc).
  - exact (reject_crew_status _ _ _ _ Hs Hc).
  - pose proof (reject_crew_status _ _ _ _ Hs Hc) as Hr.
    unfold crew_status in Hr.
    destruct (Query.get_crew (db (world (reject_crew i w s))) i) as [c'|] eqn:E;
      [|discriminate Hr].
    exact (approve_crew_status _ _ _ _ Hs E).
Qed.

End Forcing.

Lemma reject_then_approve_witness :
  crew_status (world (approve_crew 1 approved_world admin_session)) 1 = Some 3 /\
  crew_status (world (reject_crew 1 approved_world admin_session)) 1 = Some (-1) /\
  crew_status
    (world (approve_crew 1 (world (reject_crew 1 approved_world admin_session))
              admin_session)) 1 = Some 3.
Proof.
  apply (reject_then_approve 1 approved_world admin_session (jane_record 3));
    vm_compute; reflexivity.
Defined.

(* ===================================================================== *)
(** ** What a status change leaves alone *)
(* ===================================================================== *)

Section Frame.

Lemma Forall2_updated {A : Type} (R : A -> A -> Prop) (f : A -> A) (l : list A) :
  (forall a, R a (f a)) -> Forall2 R l (map f l).
Proof. intros HR. induction l; simpl; constructor; auto. Qed.

Lemma crew_frame_set_status s now c : crew_frame c (CrewMember.set_status s now c).
Proof.
  unfold crew_frame, CrewMember.set_status.
  destruct (_ =? _); simpl; repeat split.
Qed.

Lemma staff_frame_set_status s now m : staff_frame m (StaffMember.set_status s now m).
Proof.
  unfold staff_frame, StaffMember.set_status.
  destruct (_ =? _); simpl; repeat split.
Qed.

Lemma crew_change_only_refl i w : crew_change_only i w w.
Proof.
  unfold crew_change_only. repeat split.
  apply Forall_Forall2_diag, Forall_forall. intros c _.
  split; [repeat split | reflexivity].
Qed.

Lemma staff_change_only_refl i w : staff_change_only i w w.
Proof.
  unfold staff_change_only. repeat split.
  apply Forall_Forall2_diag, Forall_forall. intros c _.
  split; [repeat split | reflexivity].
Qed.

Lemma crew_change_only_commit i s w :
  crew_change_only i w
    (mkWorld (commit_crew_status (utcnow w) i s (db w)) (fs w) (utcnow w)).
Proof.
  unfold crew_change_only, commit_crew_status. cbn. repeat split.
  apply Forall2_updated. intros c. destruct (CrewMember.id c =? i) eqn:E.
  - split; [apply crew_frame_set_status|]. apply Z.eqb_eq in E. congruence.
  - split; [repeat split | reflexivity].
Qed.

Lemma staff_change_only_commit i s w :
  staff_change_only i w
    (mkWorld (commit_staff_status (utcnow w) i s (db w)) (fs w) (utcnow w)).
Proof.
  unfold staff_change_only, commit_staff_status. cbn. repeat split.
  apply Forall2_updated. intros c. destruct (StaffMember.id c =? i) eqn:E.
  - split; [apply staff_frame_set_status|]. apply Z.eqb_eq in E. congruence.
  - split; [repeat split | reflexivity].
Qed.

(** C10.  Each of [update_status], [approve_crew], [reject_crew],
    [approve_staff] and [reject_staff], called on a record id by any
    session, changes at most the [status] and [updated_at] of the record
    with that id: every other column of it, every other record, the other
    tables and the upload folder stay as they were. *)
Theorem status_change_frame (i : Z) (w : World) (s : gmap string SVal) :
  crew_change_only i w (world (update_status i w s)) /\
  crew_change_only i w (world (approve_crew i w s)) /\
  crew_change_only i w (world (reject_crew i w s)) /\
  staff_change_only i w (world (approve_staff i w s)) /\
  staff_change_only i w (world (reject_staff i w s)).
Proof.
  unfold update_status, approve_crew, reject_crew, approve_staff, reject_staff.
  destruct (require_admin s) as [[r m]|]; cbn [world].
  { split; [|split; [|split; [|split]]];
      apply crew_change_only_refl || apply staff_change_only_refl. }
  split; [|split; [|split; [|split]]].
  - destruct (Query.get_crew (db w) i) as [c|]; cbn [world];
      [|apply crew_change_only_refl].
    destruct (_ <? _); cbn [world]; [|apply crew_change_only_refl].
    destruct (py_index _ _); cbn [world]; apply crew_change_only_commit.
  - destruct (Query.get_crew (db w) i); cbv zeta; cbn [world];
      [apply crew_change_only_commit | apply crew_change_only_refl].
  - destruct (Query.get_crew (db w) i); cbv zeta; cbn [world];
      [apply crew_change_only_commit | apply crew_change_only_refl].
  - destruct (Query.get_staff (db w) i); cbv zeta; cbn [world];
      [apply staff_change_only_commit | apply staff_change_only_refl].
  - destruct (Query.get_staff (db w) i); cbv zeta; cbn [world];
      [apply staff_change_only_commit | apply staff_change_only_refl].
Qed.

End Frame.

(* ===================================================================== *)
(** ** The file store *)
(* ===================================================================== *)

Section FileStore.
Context `{Runtime}.

Lemma extension_contains (s : string) :
  contains "." s = match extension s with Some _ => true | None => false end.
Proof.
  induction s as [|a s IH]; simpl; [reflexivity|].
  rewrite IH. destruct (extension s); [apply orb_true_r|].
  rewrite orb_false_r. now destruct (Ascii.eqb a ".").
Qed.

Lemma rsplit1_extension (s : string) :
  match extension s with
  | Some e => exists h, rsplit1 "." s = [h; e]
  | None => rsplit1 "." s = [s]
  end.
Proof.
  induction s as [|a s IH]; simpl; [reflexivity|].
  destruct (extension s) as [e|].
  - destruct IH as [h ->]. eauto.
  - rewrite IH. destruct (Ascii.eqb a "."); eauto.
Qed.

Lemma allowed_file_extension (name : string) :
  allowed_file name =
  match extension name with
  | Some e => bool_decide (lower e ∈ ALLOWED_EXTENSIONS)
  | None => false
  end.
Proof.
  unfold allowed_file. rewrite extension_contains.
  pose proof (rsplit1_extension name) as Hs.
  destruct (extension name) as [e|]; [|reflexivity].
  destruct Hs as [h ->]. reflexivity.
Qed.

Lemma allowed_file_rejected (name : string) :
  allowed_file name = false <-> rejected_name name.
Proof.
  rewrite allowed_file_extension. unfold rejected_name.
  rewrite extension_contains.
  destruct (extension name) as [e|]; [|intuition].
  rewrite bool_decide_eq_false. split.
  - intros Hn. right. eauto.
  - intros [Hc | (e' & [= <-] & Hn)]; [discriminate | exact Hn].
Qed.

Lemma allowed_file_truthy (name : string) :
  truthy name && allowed_file name = allowed_file name.
Proof. destruct name; reflexivity. Qed.

(** C6.  For an uploaded file, [save_uploaded_file] returns [None] exactly
    when the file name has no dot or its extension in lower case is not one
    of pdf, doc, docx, jpg, jpeg, png, and then it leaves the upload folder
    as it was; otherwise it returns the stored name and the file is there
    under that name.  So [malware.exe] is turned away and [scan.PDF] is
    stored. *)
Theorem save_uploaded_file_rejects (f : FileStorage) (folder prefix : string)
    (w : World) (data : string) :
  ((save_uploaded_file (Some f) folder prefix w).1 = None <-> rejected_name (filename f)) /\
  (save_uploaded_file (Some f) folder prefix w = (None, w) <-> rejected_name (filename f)) /\
  ((save_uploaded_file (Some f) folder prefix w).1 <> None ->
     exists stored,
       (save_uploaded_file (Some f) folder prefix w).1 = Some stored /\
       files (fs (save_uploaded_file (Some f) folder prefix w).2)
         !! PosixPath.join UPLOAD_FOLDER [folder; stored] = Some (stream f)) /\
  save_uploaded_file (Some (mkFile "malware.exe" data)) folder prefix w = (None, w) /\
  is_Some (save_uploaded_file (Some (mkFile "scan.PDF" data)) folder prefix w).1.
Proof.
  assert (Hcases : forall g,
    (allowed_file (filename g) = false /\
     save_uploaded_file (Some g) folder prefix w = (None, w)) \/
    (allowed_file (filename g) = true /\
     exists stored,
       (save_uploaded_file (Some g) folder prefix w).1 = Some stored /\
       files (fs (save_uploaded_file (Some g) folder prefix w).2)
         !! PosixPath.join UPLOAD_FOLDER [folder; stored] = Some (stream g))).
  { intros g. unfold save_uploaded_file. rewrite allowed_file_truthy.
    destruct (allowed_file (filename g)); [right | left; split; reflexivity].
    split; [reflexivity|].
    destruct (PosixPath.splitext (secure_filename (filename g))) as [name ext].
    eexists. split; [reflexivity|]. cbn [snd fs files save_at].
    apply lookup_insert_eq. }
  split; [|split; [|split; [|split]]].
  - rewrite <- allowed_file_rejected.
    destruct (Hcases f) as [[Ha ->] | [Ha (st & -> & _)]]; rewrite Ha; simpl;
      split; congruence.
  - rewrite <- allowed_file_rejected.
    destruct (Hcases f) as [[Ha ->] | [Ha (st & Hst & _)]]; rewrite Ha;
      [tauto|].
    split; [|discriminate]. intros E. rewrite E in Hst. discriminate.
  - intros Hsome.
    destruct (Hcases f) as [[Ha E] | [Ha Hst]]; [|exact Hst].
    rewrite E in Hsome. now contradiction Hsome.
  - destruct (Hcases (mkFile "malware.exe" data)) as [[_ E] | [Ha _]];
      [exact E | vm_compute in Ha; discriminate].
  - destruct (Hcases (mkFile "scan.PDF" data)) as [[Ha _] | [_ (st & -> & _)]];
      [vm_compute in Ha; discriminate | eauto].
Qed.

End FileStore.

Lemma save_uploaded_file_rejects_witness :
  (@save_uploaded_file plain_runtime (Some (mkFile "cv.docx" "bytes")) "staff" "Ann_resume"
     fresh_world).1 = Some "Ann_resume_cv_20240101_000000.docx" /\
  files (fs (@save_uploaded_file plain_runtime (Some (mkFile "cv.docx" "bytes")) "staff"
               "Ann_resume" fresh_world).2)
    !! "uploads/staff/Ann_resume_cv_20240101_000000.docx" = Some "bytes".
Proof.
  destruct (@save_uploaded_file_rejects plain_runtime (mkFile "cv.docx" "bytes")
              "staff" "Ann_resume" fresh_world "")
    as (_ & _ & Hstored & _).
  destruct Hstored as (stored & Hname & Hfile); [vm_compute; discriminate|].
  assert (Hs : stored = "Ann_resume_cv_20240101_000000.docx").
  { vm_compute in Hname. congruence. }
  subst stored. split; [exact Hname | exact Hfile].
Defined.

(* ===================================================================== *)
(** ** The session gate *)
(* ===================================================================== *)

Section Login.
Context `{Runtime}.

(** A login that comes back with another session has passed the hash
    check. *)
Lemma admin_login_session_changed r w s :
  session (admin_login r w s) <> s ->
  method r = POST /\
  exists admin,
    Query.admin_by_username (db w) (strip (form_get r "username")) = Some admin /\
    check_password_hash (Admin.password_hash admin) (form_get r "password") = true.
Proof.
  unfold admin_login. destruct (method r); [destruct (sval_truthy _); now intros [] |].
  destruct (_ || _); [now intros []|].
  destruct (Query.admin_by_username _ _) as [admin|]; [|now intros []].
  destruct (check_password_hash _ _) eqn:E; [eauto | now intros []].
Qed.

(** C9.  A login POST with a user name that, trimmed, is not empty and
    belongs to an admin, and with a password that is not empty and fails the
    hash check, flashes "Invalid username or password.", renders the login
    form again and leaves the session and the world as they were; and
    whenever a login changes the session or newly passes the gate, the user
    name was found and the password passed the hash check. *)
Theorem admin_login_wrong_password r w s admin :
  method r = POST ->
  truthy (strip (form_get r "username")) = true ->
  truthy (form_get r "password") = true ->
  Query.admin_by_username (db w) (strip (form_get r "username")) = Some admin ->
  check_password_hash (Admin.password_hash admin) (form_get r "password") = false ->
  (flashed (admin_login r w s) = invalid_credentials /\
   response (admin_login r w s) = render_template "admin_login.html" no_context /\
   session (admin_login r w s) = s /\
   world (admin_login r w s) = w) /\
  (forall r' w' s',
     (session (admin_login r' w' s') <> s' \/
      (~ logged_in s' /\ logged_in (session (admin_login r' w' s')))) ->
     exists a,
       Query.admin_by_username (db w') (strip (form_get r' "username")) = Some a /\
       check_password_hash (Admin.password_hash a) (form_get r' "password") = true).
Proof.
  intros Hm Hu Hp Ha Hc. split.
  - unfold admin_login. rewrite Hm, Hu, Hp, Ha, Hc. repeat split.
  - intros r' w' s' [Hne | [Hout Hin]].
    + now apply admin_login_session_changed in Hne.
    + destruct (admin_login_session_changed r' w' s') as [_ Hex]; [|exact Hex].
      intros E. rewrite E in Hin. contradiction.
Qed.

End Login.

Lemma admin_login_wrong_password_witness :
  flashed (@admin_login plain_runtime (login_form "admin" "letmein") fresh_world ∅)
  = invalid_credentials /\
  session (@admin_login plain_runtime (login_form "admin" "letmein") fresh_world ∅) = ∅.
Proof.
  destruct (@admin_login_wrong_password plain_runtime (login_form "admin" "letmein")
              fresh_world ∅ (Admin.mk 1 "admin" "plain$admin123" 100))
    as [(Hflash & _ & Hsession & _) _]; try (vm_compute; reflexivity).
  split; [exact Hflash | exact Hsession].
Defined.

(** C9, as the claim words it, fails for the empty password: it does not
    match the hash of the seeded admin, yet the handler answers with the
    missing-field message instead of "Invalid username or password.". *)
Lemma admin_login_empty_password_counterexample :
  Query.admin_by_username (db fresh_world) "admin"
  = Some (Admin.mk 1 "admin" "plain$admin123" 100) /\
  @check_password_hash plain_runtime "plain$admin123" "" = false /\
  flashed (@admin_login plain_runtime (login_form "admin" "") fresh_world ∅)
  = [("Please enter both username and password.", "danger")] /\
  flashed (@admin_login plain_runtime (login_form "admin" "") fresh_world ∅)
  <> invalid_credentials.
Proof. vm_compute. repeat split; discriminate. Qed.

(* ===================================================================== *)
(** ** Registration and lookup *)
(* ===================================================================== *)

Section Registration.
Context `{Runtime}.

Lemma save_uploaded_file_db file folder prefix w :
  db (save_uploaded_file file folder prefix w).2 = db w /\
  utcnow (save_uploaded_file file folder prefix w).2 = utcnow w.
Proof.
  unfold save_uploaded_file. destruct file as [f|]; [|now split].
  destruct (_ && _); [|now split].
  destruct (PosixPath.splitext _). now split.
Qed.

Lemma saved_db file folder prefix w out w' :
  save_uploaded_file file folder prefix w = (out, w') -> db w' = db w.
Proof.
  intros E. pose proof (save_uploaded_file_db file folder prefix w) as [D _].
  now rewrite E in D.
Qed.







End Registration.

Section RegisterThenTrack.
Context `{Runtime}.


End RegisterThenTrack.



(* ===================================================================== *)
(** ** The passport as a key *)
(* ===================================================================== *)

Section PassportKey.
Context `{Runtime}.

Lemma NoDup_snoc {A : Type} (l : list A) (a : A) :
  List.NoDup l -> ~ In a l -> List.NoDup (l ++ [a])%list.
Proof.
  induction 1 as [|b l Hb Hl IH]; simpl; intros Ha.
  - constructor; [intros [] | constructor].
  - constructor.
    + rewrite in_app_iff. simpl. intros [Hin | [-> | []]]; [auto | apply Ha; now left].
    + apply IH. intros Hin. apply Ha. now right.
Qed.






End PassportKey.



(* ===================================================================== *)
(** ** The session gate, further *)
(* ===================================================================== *)

Section Gate.
Context `{Runtime}.

Lemma require_admin_refuses s :
  ~ logged_in s ->
  require_admin s
  = Some (redirect "admin_login",
          [("Please log in to access the admin dashboard.", "warning")]).
Proof.
  unfold logged_in, require_admin. intros Hs.
  destruct (sval_truthy (is_admin_logged_in s)); [now contradiction Hs | reflexivity].
Qed.

(** X1.  A login POST whose trimmed user name belongs to an admin and whose
    password passes the hash check redirects to the dashboard, leaves the
    world alone, stores the trimmed user name and the logged-in flag in the
    session, keeps every other session key, and the new session passes the
    admin gate. *)
Theorem admin_login_success r w s admin :
  method r = POST ->
  truthy (strip (form_get r "username")) = true ->
  truthy (form_get r "password") = true ->
  Query.admin_by_username (db w) (strip (form_get r "username")) = Some admin ->
  check_password_hash (Admin.password_hash admin) (form_get r "password") = true ->
  response (admin_login r w s) = redirect "dashboard" /\
  world (admin_login r w s) = w /\
  session (admin_login r w s) !! "admin_logged_in" = Some (SBool true) /\
  session (admin_login r w s) !! "admin_username"
  = Some (SStr (strip (form_get r "username"))) /\
  (forall k, k <> "admin_logged_in" -> k <> "admin_username" ->
     session (admin_login r w s) !! k = s !! k) /\
  require_admin (session (admin_login r w s)) = None.
Proof.
  intros Hm Hu Hp Ha Hc. unfold admin_login. rewrite Hm, Hu, Hp, Ha, Hc.
  cbn [negb orb response world session].
  split; [reflexivity|]. split; [reflexivity|].
  split; [now rewrite lookup_insert_ne, lookup_insert_eq|].
  split; [now rewrite lookup_insert_eq|].
  split; [intros k H1 H2; now rewrite !lookup_insert_ne|].
  apply require_admin_logged_in. unfold logged_in, is_admin_logged_in.
  now rewrite lookup_insert_ne, lookup_insert_eq.
Qed.

(** X2.  [admin_logout] works from every session: afterwards the session
    does not pass the admin gate and has no user name, every other session
    key and the world are as before, and a second logout changes nothing
    more. *)
Theorem admin_logout_clears (w : World) (s : gmap string SVal) :
  ~ logged_in (session (admin_logout w s)) /\
  session (admin_logout w s) !! "admin_username" = None /\
  (forall k, k <> "admin_logged_in" -> k <> "admin_username" ->
     session (admin_logout w s) !! k = s !! k) /\
  world (admin_logout w s) = w /\
  response (admin_logout w s) = redirect "public_home" /\
  admin_logout w (session (admin_logout w s)) = admin_logout w s.
Proof.
  unfold admin_logout, logged_in, is_admin_logged_in. cbn [session world response].
  split; [now rewrite lookup_delete_ne, lookup_delete_eq|].
  split; [now rewrite lookup_delete_eq|].
  split; [intros k H1 H2; now rewrite !lookup_delete_ne|].
  split; [reflexivity|]. split; [reflexivity|].
  f_equal. apply map_eq. intros k. rewrite !lookup_delete.
  repeat case_decide; reflexivity.
Qed.

(** X3.  A session that is not logged in gets, from every admin route, the
    redirect to the login page with the "Please log in" warning (and from
    [download_file] a second warning), and neither the world nor the session
    changes: no record is read, advanced, approved or rejected and no
    download is started. *)
Theorem anonymous_is_refused (s : gmap string SVal) (w : World) (i : Z)
    (folder filename : string) :
  ~ logged_in s ->
  update_status i w s = gate_refusal w s /\
  approve_crew i w s = gate_refusal w s /\
  reject_crew i w s = gate_refusal w s /\
  approve_staff i w s = gate_refusal w s /\
  reject_staff i w s = gate_refusal w s /\
  crew_profile i w s = gate_refusal w s /\
  staff_profile i w s = gate_refusal w s /\
  dashboard w s = (gate_refusal w s, None) /\
  download_file folder filename w s
  = download_refused
      (mkResult (redirect "admin_login")
         [("Please log in to access the admin dashboard.", "warning");
          ("Admin access required to download files.", "warning")] w s).
Proof.
  intros Hs. pose proof (require_admin_refuses s Hs) as Hr.
  unfold update_status, approve_crew, reject_crew, approve_staff, reject_staff,
    crew_profile, staff_profile, dashboard, download_file, gate_refusal.
  rewrite Hr. repeat split.
Qed.

End Gate.

Lemma admin_login_success_witness :
  response (@admin_login plain_runtime (login_form " admin " "admin123") fresh_world ∅)
  = redirect "dashboard" /\
  session (@admin_login plain_runtime (login_form " admin " "admin123") fresh_world ∅)
    !! "admin_username" = Some (SStr "admin").
Proof.
  destruct (@admin_login_success plain_runtime (login_form " admin " "admin123")
              fresh_world ∅ (Admin.mk 1 "admin" "plain$admin123" 100))
    as (Hresp & _ & _ & Hname & _); try (vm_compute; reflexivity).
  split; [exact Hresp | exact Hname].
Defined.

Lemma anonymous_is_refused_witness :
  approve_crew 1 jane_world ∅ = gate_refusal jane_world ∅ /\
  dashboard jane_world ∅ = (gate_refusal jane_world ∅, None).
Proof.
  destruct (anonymous_is_refused ∅ jane_world 1 "crew" "x.pdf")
    as (_ & Happrove & _ & _ & _ & _ & _ & Hdash & _).
  - vm_compute. discriminate.
  - split; [exact Happrove | exact Hdash].
Defined.

(* ===================================================================== *)
(** ** What one request does to the tables *)
(* ===================================================================== *)

Section Steps.
Context `{Runtime}.

Lemma saved_now file folder prefix w out w' :
  save_uploaded_file file folder prefix w = (out, w') -> utcnow w' = utcnow w.
Proof.
  intros E. pose proof (save_uploaded_file_db file folder prefix w) as [_ D].
  now rewrite E in D.
Qed.

(** [register] ends in one of two ways: with the form again and the world
    untouched, or with the thank-you page and one new row. *)
Lemma register_outcome r w s :
  session (register r w s) = s /\
  ((world (register r w s) = w /\
    response (register r w s) = render_template "register.html" no_context) \/
   exists c,
     method r = POST /\ valid_crew_form r /\
     response (register r w s)
     = render_template "thankyou.html" (mkContext (Some c) None false) /\
     flashed (register r w s) = [("Registration completed successfully!", "success")] /\
     db (world (register r w s))
     = mkDB (admins (db w)) (crew_members (db w) ++ [c])%list (staff_members (db w)) /\
     utcnow (world (register r w s)) = utcnow w /\
     CrewMember.id c = next_id (map CrewMember.id (crew_members (db w))) /\
     CrewMember.status c = 0 /\
     CrewMember.passport c = upper (strip (form_get r "passport")) /\
     CrewMember.name c = strip (form_get r "name") /\
     CrewMember.rank c = strip (form_get r "rank") /\
     CrewMember.created_at c = utcnow w /\
     Query.crew_by_passport (db w) (CrewMember.passport c) = None).
Proof.
  unfold register, valid_crew_form. destruct (method r); [now split; [|left]|].
  destruct (truthy (strip (form_get r "name"))) eqn:Hn; [|now split; [|left]].
  destruct (truthy (strip (form_get r "rank"))) eqn:Hr; [|now split; [|left]].
  destruct (truthy (strip (form_get r "passport"))) eqn:Hp; [|now split; [|left]].
  cbn [negb orb].
  destruct (Query.crew_by_passport _ _) eqn:Hq; [now split; [|left]|].
  destruct (convert strptime_date (form_get r "date_of_birth")) as [d1|] eqn:Hd1;
    [|now split; [|left]].
  destruct (convert strptime_date (form_get r "availability_date")) as [d2|] eqn:Hd2;
    [|now split; [|left]].
  destruct (convert int_of_str (form_get r "years_experience")) as [y|] eqn:Hy;
    [|now split; [|left]].
  destruct (save_uploaded_file _ _ _ w) as [f1 w1] eqn:E1.
  destruct (save_uploaded_file _ _ _ w1) as [f2 w2] eqn:E2.
  destruct (save_uploaded_file _ _ _ w2) as [f3 w3] eqn:E3.
  destruct (save_uploaded_file _ _ _ w3) as [f4 w4] eqn:E4.
  assert (Hdb : db w4 = db w).
  { rewrite (saved_db _ _ _ _ _ _ E4), (saved_db _ _ _ _ _ _ E3),
      (saved_db _ _ _ _ _ _ E2). exact (saved_db _ _ _ _ _ _ E1). }
  assert (Hnow : utcnow w4 = utcnow w).
  { rewrite (saved_now _ _ _ _ _ _ E4), (saved_now _ _ _ _ _ _ E3),
      (saved_now _ _ _ _ _ _ E2). exact (saved_now _ _ _ _ _ _ E1). }
  unfold insert_crew. cbn [CrewMember.passport]. rewrite Hdb, Hq, Hnow.
  cbn [world db response flashed session utcnow].
  split; [reflexivity|]. right. eexists.
  split; [reflexivity|]. split; [repeat split; eauto|].
  cbn [CrewMember.id CrewMember.status CrewMember.passport CrewMember.name
       CrewMember.rank CrewMember.created_at].
  repeat split. exact Hq.
Qed.

Lemma register_staff_outcome r w s :
  session (register_staff r w s) = s /\
  ((world (register_staff r w s) = w /\
    response (register_staff r w s) = render_template "register_staff.html" no_context) \/
   exists m,
     method r = POST /\ valid_staff_form r /\
     response (register_staff r w s)
     = render_template "thankyou_staff.html" (mkContext None (Some m) false) /\
     db (world (register_staff r w s))
     = mkDB (admins (db w)) (crew_members (db w)) (staff_members (db w) ++ [m])%list /\
     utcnow (world (register_staff r w s)) = utcnow w /\
     StaffMember.id m = next_id (map StaffMember.id (staff_members (db w))) /\
     StaffMember.status m = 1 /\
     StaffMember.full_name m = strip (form_get r "full_name") /\
     StaffMember.created_at m = utcnow w).
Proof.
  unfold register_staff, valid_staff_form. destruct (method r); [now split; [|left]|].
  destruct (truthy (strip (form_get r "full_name"))) eqn:H1; [|now split; [|left]].
  destruct (truthy (strip (form_get r "email_or_whatsapp"))) eqn:H2; [|now split; [|left]].
  destruct (truthy (strip (form_get r "position_applying"))) eqn:H3; [|now split; [|left]].
  destruct (truthy (strip (form_get r "department"))) eqn:H4; [|now split; [|left]].
  cbn [negb orb].
  destruct (convert strptime_date (form_get r "availability_date")) as [d2|] eqn:Hd2;
    [|now split; [|left]].
  destruct (convert int_of_str (form_get r "years_experience")) as [y|] eqn:Hy;
    [|now split; [|left]].
  destruct (save_uploaded_file _ _ _ w) as [f1 w1] eqn:E1.
  destruct (save_uploaded_file _ _ _ w1) as [f2 w2] eqn:E2.
  assert (Hdb : db w2 = db w).
  { rewrite (saved_db _ _ _ _ _ _ E2). exact (saved_db _ _ _ _ _ _ E1). }
  assert (Hnow : utcnow w2 = utcnow w).
  { rewrite (saved_now _ _ _ _ _ _ E2). exact (saved_now _ _ _ _ _ _ E1). }
  unfold insert_staff. rewrite Hdb, Hnow.
  cbn [world db response flashed session utcnow].
  split; [reflexivity|]. right. eexists.
  split; [reflexivity|]. split; [repeat split; eauto|].
  repeat split.
Qed.

(** Every route moves the tables by one [db_step]. *)
Lemma handle_db_step rt w s : db_step (db w) (db (world (handle rt w s))).
Proof.
  destruct rt as [r|r|i|r|r| |i|i|i|i|i|i]; cbn [handle].
  - destruct (register_outcome r w s)
      as [_ [[-> _] | (c & _ & Hv & _ & _ & -> & _ & Hid & Hst & Hp & _ & _ & _ & Hq)]];
      [constructor|].
    apply (step_crew_insert _ c (form_get r "passport")); try assumption. apply Hv.
  - destruct (register_staff_outcome r w s)
      as [_ [[-> _] | (m & _ & _ & _ & -> & _ & Hid & Hst & _)]];
      [constructor | now apply step_staff_insert].
  - unfold update_status.
    destruct (require_admin s) as [[a b]|]; [constructor|].
    destruct (Query.get_crew _ _) as [c|] eqn:Hc; [|constructor].
    change (Z.of_nat (List.length status_stages) - 1) with 3.
    destruct (_ <? 3) eqn:E; [|constructor]. apply Z.ltb_lt in E.
    destruct (py_index _ _); cbn [world db]; now apply step_crew_advance.
  - unfold track. destruct (method r); [constructor|].
    destruct (negb _); [constructor|].
    destruct (Query.crew_by_passport _ _); constructor.
  - unfold admin_login. destruct (method r); [destruct (sval_truthy _); constructor|].
    destruct (_ || _); [constructor|].
    destruct (Query.admin_by_username _ _); [|constructor].
    destruct (check_password_hash _ _); constructor.
  - constructor.
  - unfold crew_profile. destruct (require_admin s) as [[a b]|]; [constructor|].
    destruct (Query.get_crew _ _); constructor.
  - unfold staff_profile. destruct (require_admin s) as [[a b]|]; [constructor|].
    destruct (Query.get_staff _ _); constructor.
  - unfold approve_crew. destruct (require_admin s) as [[a b]|]; [constructor|].
    destruct (Query.get_crew _ _); [|constructor].
    cbv zeta. cbn [world db]. apply step_crew_force. now left.
  - unfold reject_crew. destruct (require_admin s) as [[a b]|]; [constructor|].
    destruct (Query.get_crew _ _); [|constructor].
    cbv zeta. cbn [world db]. apply step_crew_force. now right.
  - unfold approve_staff. destruct (require_admin s) as [[a b]|]; [constructor|].
    destruct (Query.get_staff _ _); [|constructor].
    cbv zeta. cbn [world db]. apply step_staff_force. now left.
  - unfold reject_staff. destruct (require_admin s) as [[a b]|]; [constructor|].
    destruct (Query.get_staff _ _); [|constructor].
    cbv zeta. cbn [world db]. apply step_staff_force. now right.
Qed.

(** A property of the tables that holds at start-up and survives every
    [db_step] holds in every reachable world. *)
Lemma reachable_db (P : DB -> Prop) :
  (forall now, P (db (init_db (mkWorld empty_db (mkFS ∅ ∅) now)))) ->
  (forall d d', P d -> db_step d d' -> P d') ->
  forall w, reachable w -> P (db w).
Proof.
  intros Hstart Hstep w Hw.
  induction Hw as [now | w t Hw IH Ht | w rt s Hw IH].
  - apply Hstart.
  - exact IH.
  - apply (Hstep (db w)); [exact IH | apply handle_db_step].
Qed.

End Steps.

(* ===================================================================== *)
(** ** Invariants of the tables *)
(* ===================================================================== *)

Section Invariants.
Context `{Runtime}.

Lemma next_id_above (ids : list Z) :
  1 <= next_id ids /\ Forall (fun i => i < next_id ids) ids.
Proof.
  unfold next_id. induction ids as [|i ids [IH1 IH2]]; simpl.
  - split; [lia | constructor].
  - split; [lia|]. constructor; [lia|].
    eapply Forall_impl; [exact IH2|]. simpl. intros j Hj. lia.
Qed.

Lemma keys_ok_snoc (ids : list Z) : keys_ok ids -> keys_ok (ids ++ [next_id ids])%list.
Proof.
  intros [Hnd Hpos]. destruct (next_id_above ids) as [H1 Hlt]. split.
  - apply NoDup_snoc; [exact Hnd|]. intros Hin.
    rewrite Forall_forall in Hlt. apply list_elem_of_In, Hlt in Hin. lia.
  - apply Forall_app. split; [exact Hpos | now constructor].
Qed.

Lemma crew_ids_commit now i st l :
  map CrewMember.id
    (map (fun c => if CrewMember.id c =? i then CrewMember.set_status st now c else c) l)
  = map CrewMember.id l.
Proof.
  rewrite map_map. apply map_ext. intros c.
  destruct (_ =? _); [apply crew_set_status_id | reflexivity].
Qed.

Lemma staff_ids_commit now i st l :
  map StaffMember.id
    (map (fun m => if StaffMember.id m =? i then StaffMember.set_status st now m else m) l)
  = map StaffMember.id l.
Proof.
  rewrite map_map. apply map_ext. intros m.
  destruct (_ =? _); [apply staff_set_status_id | reflexivity].
Qed.

Lemma crew_status_commit now i st l :
  -1 <= st <= 3 ->
  Forall crew_status_ok l ->
  Forall crew_status_ok
    (map (fun c => if CrewMember.id c =? i then CrewMember.set_status st now c else c) l).
Proof.
  intros Hst Hl. rewrite Forall_forall in *. intros c' Hin.
  apply list_elem_of_In, in_map_iff in Hin as (c & <- & Hin).
  destruct (_ =? _).
  - unfold crew_status_ok. now rewrite crew_set_status_status.
  - apply Hl, list_elem_of_In, Hin.
Qed.

Lemma staff_status_commit now i st l :
  st = 3 \/ st = -1 ->
  Forall staff_status_ok l ->
  Forall staff_status_ok
    (map (fun m => if StaffMember.id m =? i then StaffMember.set_status st now m else m) l).
Proof.
  intros Hst Hl. rewrite Forall_forall in *. intros m' Hin.
  apply list_elem_of_In, in_map_iff in Hin as (m & <- & Hin).
  destruct (_ =? _).
  - unfold staff_status_ok. rewrite staff_set_status_status. tauto.
  - apply Hl, list_elem_of_In, Hin.
Qed.

Lemma db_step_tables_ok d d' : tables_ok d -> db_step d d' -> tables_ok d'.
Proof.
  intros (Hck & Hsk & Hcs & Hss) Hstep.
  destruct Hstep as [|c x Hid Hst Hq _ _|m Hid Hst|now i st Hst|now i c Hc Hlt|now i st Hst];
    unfold tables_ok; cbn [crew_members staff_members commit_crew_status commit_staff_status].
  - auto.
  - rewrite map_app. cbn [map]. rewrite Hid.
    split; [now apply keys_ok_snoc|]. split; [exact Hsk|]. split; [|exact Hss].
    apply Forall_app. split; [exact Hcs|]. constructor; [|constructor].
    unfold crew_status_ok. lia.
  - rewrite map_app. cbn [map]. rewrite Hid.
    split; [exact Hck|]. split; [now apply keys_ok_snoc|]. split; [exact Hcs|].
    apply Forall_app. split; [exact Hss|]. constructor; [|constructor].
    unfold staff_status_ok. tauto.
  - rewrite crew_ids_commit.
    split; [exact Hck|]. split; [exact Hsk|]. split; [|exact Hss].
    apply crew_status_commit; [lia | exact Hcs].
  - rewrite crew_ids_commit.
    split; [exact Hck|]. split; [exact Hsk|]. split; [|exact Hss].
    apply crew_status_commit; [|exact Hcs].
    apply find_some in Hc as [Hin _].
    rewrite Forall_forall in Hcs. apply list_elem_of_In, Hcs in Hin.
    unfold crew_status_ok in Hin. lia.
  - rewrite staff_ids_commit.
    split; [exact Hck|]. split; [exact Hsk|]. split; [exact Hcs|].
    now apply staff_status_commit.
Qed.

Lemma reachable_tables_ok w : reachable w -> tables_ok (db w).
Proof.
  apply reachable_db.
  - intros now. cbn. repeat split; constructor.
  - apply db_step_tables_ok.
Qed.

Lemma upper_char_twice (c : ascii) : upper_char (upper_char c) = upper_char c.
Proof.
  destruct c as [[] [] [] [] [] [] [] []]; vm_compute; reflexivity.
Qed.

Lemma upper_twice (s : string) : upper (upper s) = upper s.
Proof.
  unfold upper. induction s as [|c s IH]; simpl; [reflexivity|].
  now rewrite upper_char_twice, IH.
Qed.

Lemma db_step_normalised d d' :
  Forall normalised (map CrewMember.passport (crew_members d)) ->
  db_step d d' ->
  Forall normalised (map CrewMember.passport (crew_members d')).
Proof.
  intros Hn Hstep.
  destruct Hstep as [|c x _ _ _ Hp Ht|m _ _|now i st _|now i c _ _|now i st _];
    cbn [crew_members commit_crew_status commit_staff_status]; try exact Hn.
  - rewrite map_app. apply Forall_app. split; [exact Hn|].
    constructor; [|constructor]. rewrite Hp. split; [apply upper_twice|]. split.
    + now rewrite <- upper_strip, strip_idem.
    + intros E. unfold upper in E.
      pose proof (truthy_map_chars upper_char (strip x)) as Hu.
      rewrite E, Ht in Hu. discriminate.
  - rewrite map_map. erewrite map_ext; [exact Hn|].
    intros a. simpl. destruct (_ =? _); [apply crew_set_status_passport | reflexivity].
  - rewrite map_map. erewrite map_ext; [exact Hn|].
    intros a. simpl. destruct (_ =? _); [apply crew_set_status_passport | reflexivity].
Qed.

(** Looking a row up by its key in a table with distinct keys gives the row. *)
Lemma find_by_key {A : Type} (key : A -> Z) (l : list A) (a : A) :
  List.NoDup (map key l) -> In a l -> find (fun b => key b =? key a) l = Some a.
Proof.
  induction l as [|b l IH]; simpl; intros Hnd Hin; [contradiction|].
  inversion Hnd as [|k ks Hnotin Hnd']; subst.
  destruct Hin as [-> | Hin].
  - now rewrite Z.eqb_refl.
  - destruct (key b =? key a) eqn:E; [|now apply IH].
    apply Z.eqb_eq in E. contradiction Hnotin. rewrite E. now apply in_map.
Qed.

(** X4.  In every reachable world the primary keys of the crew table are
    distinct and positive, and so are those of the staff table; hence a
    lookup by id returns exactly the stored row with that id. *)
Theorem reachable_keys_unique w :
  reachable w ->
  keys_ok (map CrewMember.id (crew_members (db w))) /\
  keys_ok (map StaffMember.id (staff_members (db w))) /\
  (forall c, In c (crew_members (db w)) ->
     Query.get_crew (db w) (CrewMember.id c) = Some c) /\
  (forall m, In m (staff_members (db w)) ->
     Query.get_staff (db w) (StaffMember.id m) = Some m).
Proof.
  intros Hw. destruct (reachable_tables_ok w Hw) as (Hck & Hsk & _ & _).
  split; [exact Hck|]. split; [exact Hsk|]. split.
  - intros c Hin. apply find_by_key; [apply Hck | exact Hin].
  - intros m Hin. apply find_by_key; [apply Hsk | exact Hin].
Qed.

(** X5.  In every reachable world each crew status is one of -1, 0, 1, 2, 3
    and each staff status is one of -1, 1, 3: no sequence of requests
    produces any other value. *)
Theorem reachable_status_domain w :
  reachable w ->
  Forall crew_status_ok (crew_members (db w)) /\
  Forall staff_status_ok (staff_members (db w)).
Proof.
  intros Hw. destruct (reachable_tables_ok w Hw) as (_ & _ & Hcs & Hss).
  now split.
Qed.

(** X25.  In every reachable world each stored passport is in normal form:
    upper-case, without surrounding white space and not empty.  So the
    string [track] and [register] look up, the trimmed upper-cased input, is
    of the same form as every key it is compared with. *)
Theorem reachable_passports_normalised w :
  reachable w -> Forall normalised (passports w).
Proof.
  unfold passports.
  apply (reachable_db (fun d => Forall normalised (map CrewMember.passport (crew_members d)))).
  - intros now. constructor.
  - apply db_step_normalised.
Qed.

End Invariants.

Lemma jane_world_reachable : @reachable plain_runtime jane_world.
Proof. exact (reach_handle _ (Register (jane_form "ab123")) ∅ (reach_start 100)). Qed.

Lemma reachable_keys_unique_witness :
  keys_ok (map CrewMember.id (crew_members (db jane_world))) /\
  Query.get_crew (db jane_world) 1 = Some (jane_record 0).
Proof.
  destruct (@reachable_keys_unique plain_runtime jane_world jane_world_reachable)
    as (Hkeys & _ & Hget & _).
  split; [exact Hkeys|].
  apply (Hget (jane_record 0)). vm_compute. now left.
Defined.

Lemma reachable_passports_normalised_witness :
  Forall normalised (passports jane_world).
Proof.
  exact (@reachable_passports_normalised plain_runtime jane_world jane_world_reachable).
Defined.

Lemma reachable_status_domain_witness :
  Forall crew_status_ok (crew_members (db rejected_world)).
Proof.
  apply (@reachable_status_domain plain_runtime rejected_world).
  exact (reach_handle _ (RejectCrew 1) admin_session jane_world_reachable).
Defined.

(* ===================================================================== *)
(** ** Registration, further *)
(* ===================================================================== *)

Section Registering.
Context `{Runtime}.



End Registering.


(* ===================================================================== *)
(** ** What never happens to a record *)
(* ===================================================================== *)

Section Persistence.
Context `{Runtime}.

Lemma crew_frame_refl c : crew_frame c c.
Proof. unfold crew_frame. repeat split. Qed.

Lemma staff_frame_refl m : staff_frame m m.
Proof. unfold staff_frame. repeat split. Qed.

Lemma crew_frame_trans a b c : crew_frame a b -> crew_frame b c -> crew_frame a c.
Proof. unfold crew_frame. intuition congruence. Qed.

Lemma staff_frame_trans a b c : staff_frame a b -> staff_frame b c -> staff_frame a c.
Proof. unfold staff_frame. intuition congruence. Qed.

Lemma find_app_some {A : Type} (p : A -> bool) (l k : list A) (a : A) :
  find p l = Some a -> find p (l ++ k)%list = Some a.
Proof.
  induction l as [|b l IH]; simpl; [discriminate|].
  destruct (p b); [trivial | exact IH].
Qed.

(** Reading a row under another key than the one updated. *)
Lemma find_updated_other {A : Type} (key : A -> Z) (f : A -> A) (i j : Z) (l : list A) :
  (forall a, key (f a) = key a) -> j <> i ->
  find (fun a => key a =? j) (map (fun a => if key a =? i then f a else a) l)
  = find (fun a => key a =? j) l.
Proof.
  intros Hkey Hne. induction l as [|a l IH]; simpl; [reflexivity|].
  destruct (key a =? i) eqn:Ei.
  - rewrite Hkey. apply Z.eqb_eq in Ei.
    destruct (key a =? j) eqn:Ej; [apply Z.eqb_eq in Ej; congruence | exact IH].
  - destruct (key a =? j); [reflexivity | exact IH].
Qed.

Lemma get_crew_after_commit now i st d j c :
  Query.get_crew d j = Some c ->
  exists c', Query.get_crew (commit_crew_status now i st d) j = Some c' /\ crew_frame c c'.
Proof.
  intros Hc. destruct (Z.eq_dec j i) as [->|Hne].
  - rewrite get_crew_commit, Hc. cbn [option_map]. eexists. split; [reflexivity|].
    apply crew_frame_set_status.
  - unfold Query.get_crew, commit_crew_status. cbn [crew_members].
    rewrite find_updated_other; [|intros a; apply crew_set_status_id | exact Hne].
    exists c. split; [exact Hc | apply crew_frame_refl].
Qed.

Lemma get_staff_after_commit now i st d j m :
  Query.get_staff d j = Some m ->
  exists m', Query.get_staff (commit_staff_status now i st d) j = Some m' /\ staff_frame m m'.
Proof.
  intros Hm. destruct (Z.eq_dec j i) as [->|Hne].
  - rewrite get_staff_commit, Hm. cbn [option_map]. eexists. split; [reflexivity|].
    apply staff_frame_set_status.
  - unfold Query.get_staff, commit_staff_status. cbn [staff_members].
    rewrite find_updated_other; [|intros a; apply staff_set_status_id | exact Hne].
    exists m. split; [exact Hm | apply staff_frame_refl].
Qed.

Lemma db_step_keeps_crew d d' j c :
  db_step d d' -> Query.get_crew d j = Some c ->
  exists c', Query.get_crew d' j = Some c' /\ crew_frame c c'.
Proof.
  intros Hstep Hc.
  destruct Hstep as [|x y _ _ _ _ _|m _ _|now i st _|now i x _ _|now i st _];
    try (exists c; split; [exact Hc | apply crew_frame_refl]).
  - exists c. split; [|apply crew_frame_refl].
    unfold Query.get_crew. cbn [crew_members]. now apply find_app_some.
  - now apply get_crew_after_commit.
  - now apply get_crew_after_commit.
Qed.

Lemma db_step_keeps_staff d d' j m :
  db_step d d' -> Query.get_staff d j = Some m ->
  exists m', Query.get_staff d' j = Some m' /\ staff_frame m m'.
Proof.
  intros Hstep Hm.
  destruct Hstep as [|x y _ _ _ _ _|x _ _|now i st _|now i x _ _|now i st _];
    try (exists m; split; [exact Hm | apply staff_frame_refl]).
  - exists m. split; [|apply staff_frame_refl].
    unfold Query.get_staff. cbn [staff_members]. now apply find_app_some.
  - now apply get_staff_after_commit.
Qed.

(** X8.  Whatever requests follow, a stored record stays: a crew record
    found under an id is found under it in every later world, and differs
    from the original at most in [status] and [updated_at]; the same holds
    for a staff record.  No route deletes a record or edits its name,
    passport, file references or creation time. *)
Theorem records_persist w w' :
  evolves w w' ->
  (forall i c, Query.get_crew (db w) i = Some c ->
     exists c', Query.get_crew (db w') i = Some c' /\ crew_frame c c') /\
  (forall i m, Query.get_staff (db w) i = Some m ->
     exists m', Query.get_staff (db w') i = Some m' /\ staff_frame m m').
Proof.
  induction 1 as [|w' t Hev [IHc IHs] Ht|w' rt s Hev [IHc IHs]].
  - split; intros i x Hx; exists x; split;
      [exact Hx | apply crew_frame_refl | exact Hx | apply staff_frame_refl].
  - split; [exact IHc | exact IHs].
  - split.
    + intros i c Hc. destruct (IHc i c Hc) as (c1 & Hc1 & F1).
      destruct (db_step_keeps_crew _ _ i c1 (handle_db_step rt w' s) Hc1)
        as (c2 & Hc2 & F2).
      exists c2. split; [exact Hc2 | exact (crew_frame_trans _ _ _ F1 F2)].
    + intros i m Hm. destruct (IHs i m Hm) as (m1 & Hm1 & F1).
      destruct (db_step_keeps_staff _ _ i m1 (handle_db_step rt w' s) Hm1)
        as (m2 & Hm2 & F2).
      exists m2. split; [exact Hm2 | exact (staff_frame_trans _ _ _ F1 F2)].
Qed.


End Persistence.

Lemma records_persist_witness :
  exists c', Query.get_crew (db approved_world) 1 = Some c' /\
             crew_frame (jane_record 0) c'.
Proof.
  destruct (@records_persist plain_runtime jane_world approved_world) as [Hcrew _].
  - exact (evolves_handle jane_world jane_world (ApproveCrew 1) admin_session
             (evolves_refl jane_world)).
  - apply (Hcrew 1 (jane_record 0)). vm_compute. reflexivity.
Defined.


(* ===================================================================== *)
(** ** The administrators *)
(* ===================================================================== *)

Section Administrators.
Context `{Runtime}.

Lemma db_step_admins d d' : db_step d d' -> admins d' = admins d.
Proof. now destruct 1. Qed.

Lemma reachable_admins w : reachable w -> exists t, admins (db w) = [default_admin t].
Proof.
  apply (reachable_db (fun d => exists t, admins d = [default_admin t])).
  - intros now. exists now. reflexivity.
  - intros d d' [t Ht] Hstep. exists t. now rewrite (db_step_admins _ _ Hstep).
Qed.

(** X10.  The start-up block is run-once: after it the admin table is not
    empty, crew and staff tables, upload folder and clock are as before, a
    world that already has an admin is left as it is, and running the block
    again changes nothing. *)
Theorem init_db_once (w : World) :
  admins (db (init_db w)) <> [] /\
  crew_members (db (init_db w)) = crew_members (db w) /\
  staff_members (db (init_db w)) = staff_members (db w) /\
  fs (init_db w) = fs w /\
  utcnow (init_db w) = utcnow w /\
  (admins (db w) <> [] -> init_db w = w) /\
  init_db (init_db w) = init_db w.
Proof.
  unfold init_db, insert_admin, Query.admin_by_username.
  destruct (admins (db w)) as [|a l] eqn:E.
  - cbn. repeat split; try discriminate. now intros [].
  - rewrite E. repeat split; try discriminate.
Qed.

(** X11.  No route creates, changes or removes an administrator: in every
    reachable world the admin table holds exactly the account made at
    start-up, user name [admin] with the hash of [admin123]; so a login POST
    under any other user name leaves the session as it was. *)
Theorem only_the_default_admin w :
  reachable w ->
  (exists t, admins (db w) = [default_admin t]) /\
  (forall r s,
     strip (form_get r "username") <> "admin" ->
     session (admin_login r w s) = s /\ world (admin_login r w s) = w).
Proof.
  intros Hw. destruct (reachable_admins w Hw) as [t Ht].
  split; [eauto|]. intros r s Hname.
  unfold admin_login, Query.admin_by_username. rewrite Ht.
  destruct (method r); [now destruct (sval_truthy _)|].
  destruct (_ || _); [now split|].
  cbn [find default_admin Admin.username].
  destruct (String.eqb_spec "admin" (strip (form_get r "username"))) as [E|E];
    [congruence | now split].
Qed.

(** X12.  If the hash function accepts the password it hashed, then in every
    reachable world the login [admin] / [admin123] succeeds: the default
    credentials stay valid whatever requests have been made. *)
Theorem default_credentials_always_work w s :
  check_password_hash (generate_password_hash "admin123") "admin123" = true ->
  reachable w ->
  response (admin_login (login_form "admin" "admin123") w s) = redirect "dashboard" /\
  logged_in (session (admin_login (login_form "admin" "admin123") w s)).
Proof.
  intros Hhash Hw. destruct (reachable_admins w Hw) as [t Ht].
  unfold admin_login, Query.admin_by_username. rewrite Ht.
  change (strip (form_get (login_form "admin" "admin123") "username")) with "admin".
  change (form_get (login_form "admin" "admin123") "password") with "admin123".
  cbn [method login_form truthy negb orb find default_admin Admin.username
       Admin.password_hash].
  change ("admin" =? "admin")%string with true. cbv iota.
  change (Admin.password_hash (default_admin t)) with (generate_password_hash "admin123").
  rewrite Hhash.
  cbn [response session]. split; [reflexivity|].
  unfold logged_in, is_admin_logged_in.
  now rewrite lookup_insert_ne, lookup_insert_eq.
Qed.

End Administrators.

Lemma only_the_default_admin_witness :
  session (@admin_login plain_runtime (login_form "root" "admin123") rejected_world ∅) = ∅.
Proof.
  destruct (@only_the_default_admin plain_runtime rejected_world) as [_ Hother].
  - exact (reach_handle _ (RejectCrew 1) admin_session jane_world_reachable).
  - apply (Hother (login_form "root" "admin123") ∅). vm_compute. discriminate.
Defined.

Lemma default_credentials_always_work_witness :
  logged_in (session (@admin_login plain_runtime (login_form "admin" "admin123")
                        rejected_world ∅)).
Proof.
  apply (@default_credentials_always_work plain_runtime rejected_world ∅).
  - vm_compute. reflexivity.
  - exact (reach_handle _ (RejectCrew 1) admin_session jane_world_reachable).
Defined.

(* ===================================================================== *)
(** ** Tracking and labels *)
(* ===================================================================== *)

Section Tracking.
Context `{Runtime}.



(** X14.  In a reachable world a stored crew record is labelled "Unknown"
    exactly when it is rejected (status -1): the crew labels have no entry
    for the rejected state.  A stored staff record is never labelled
    "Unknown", and labelled "Rejected" exactly at status -1. *)
Theorem reachable_status_labels w :
  reachable w ->
  (forall c, In c (crew_members (db w)) ->
     (CrewMember.get_status_name c = Some "Unknown" <-> CrewMember.status c = -1)) /\
  (forall m, In m (staff_members (db w)) ->
     StaffMember.get_status_name m <> "Unknown" /\
     (StaffMember.get_status_name m = "Rejected" <-> StaffMember.status m = -1)).
Proof.
  intros Hw. destruct (reachable_tables_ok w Hw) as (_ & _ & Hcs & Hss).
  rewrite Forall_forall in Hcs. rewrite Forall_forall in Hss. split.
  - intros c Hin. apply list_elem_of_In, Hcs in Hin. unfold crew_status_ok in Hin.
    unfold CrewMember.get_status_name.
    assert (Hcases : CrewMember.status c = -1 \/ CrewMember.status c = 0 \/
                     CrewMember.status c = 1 \/ CrewMember.status c = 2 \/
                     CrewMember.status c = 3) by lia.
    destruct Hcases as [-> | [-> | [-> | [-> | ->]]]]; vm_compute;
      split; (reflexivity || discriminate).
  - intros m Hin. apply list_elem_of_In, Hss in Hin.
    unfold StaffMember.get_status_name.
    destruct Hin as [-> | [-> | ->]]; vm_compute;
      (split; [discriminate | split; (reflexivity || discriminate)]).
Qed.

End Tracking.


Lemma reachable_status_labels_witness :
  CrewMember.get_status_name (jane_record (-1)) = Some "Unknown".
Proof.
  destruct (@reachable_status_labels plain_runtime rejected_world) as [Hcrew _].
  - exact (reach_handle _ (RejectCrew 1) admin_session jane_world_reachable).
  - apply (Hcrew (jane_record (-1))); [vm_compute; now left | reflexivity].
Defined.

(* ===================================================================== *)
(** ** The file store, further *)
(* ===================================================================== *)

Section Uploads.
Context `{Runtime}.

Lemma extension_last (stem ext : string) :
  extension ext = None -> extension (stem ++ String "." ext) = Some ext.
Proof.
  intros He. induction stem as [|a stem IH]; simpl.
  - now rewrite He.
  - now rewrite IH.
Qed.

(** X15.  Only what follows the last dot counts: a name [stem.ext] whose
    [ext] has no dot is allowed exactly when [ext] in lower case is one of
    the six extensions, whatever [stem] is, be it empty or itself ending in
    another extension. *)
Theorem allowed_file_last_extension (stem ext : string) :
  contains "." ext = false ->
  allowed_file (stem ++ "." ++ ext)
  = bool_decide (lower ext ∈ ALLOWED_EXTENSIONS).
Proof.
  intros Hdot. rewrite allowed_file_extension.
  change ("." ++ ext) with (String "." ext).
  rewrite extension_last; [reflexivity|].
  rewrite extension_contains in Hdot. now destruct (extension ext).
Qed.

(** The stored name and path of an accepted upload. *)
Lemma save_accepted f folder prefix w :
  allowed_file (filename f) = true ->
  exists name ext,
    PosixPath.splitext (secure_filename (filename f)) = (name, ext) /\
    save_uploaded_file (Some f) folder prefix w
    = (Some (prefix ++ "_" ++ name ++ "_" ++ strftime_stamp (utcnow w) ++ ext),
       mkWorld (db w)
         (save_at (PosixPath.join UPLOAD_FOLDER
                     [folder; prefix ++ "_" ++ name ++ "_" ++ strftime_stamp (utcnow w) ++ ext])
                  f (fs w))
         (utcnow w)).
Proof.
  intros Ha. unfold save_uploaded_file. rewrite allowed_file_truthy, Ha.
  destruct (PosixPath.splitext _) as [name ext]. eauto.
Qed.

(** X16.  [save_uploaded_file] never removes anything: every file and every
    directory of the upload folder is still there afterwards, the tables and
    the clock are untouched, and when a name is returned the only path whose
    content can differ is the one the file was saved under. *)
Theorem save_uploaded_file_keeps_files (file : option FileStorage)
    (folder prefix : string) (w : World) :
  (forall p, is_Some (files (fs w) !! p) ->
     is_Some (files (fs (save_uploaded_file file folder prefix w).2) !! p)) /\
  dirs (fs w) ⊆ dirs (fs (save_uploaded_file file folder prefix w).2) /\
  db (save_uploaded_file file folder prefix w).2 = db w /\
  utcnow (save_uploaded_file file folder prefix w).2 = utcnow w /\
  (forall stored p,
     (save_uploaded_file file folder prefix w).1 = Some stored ->
     p <> PosixPath.join UPLOAD_FOLDER [folder; stored] ->
     files (fs (save_uploaded_file file folder prefix w).2) !! p = files (fs w) !! p) /\
  ((save_uploaded_file file folder prefix w).1 = None ->
     (save_uploaded_file file folder prefix w).2 = w).
Proof.
  unfold save_uploaded_file. destruct file as [f|];
    [|repeat split; (done || discriminate)].
  destruct (_ && _); [|repeat split; (done || discriminate)].
  destruct (PosixPath.splitext _) as [name ext].
  cbn [fst snd fs db utcnow save_at files dirs].
  split; [|split; [|split; [|split; [|split]]]].
  - intros p Hp. rewrite lookup_insert. case_decide; [eauto | exact Hp].
  - apply union_subseteq_r.
  - reflexivity.
  - reflexivity.
  - intros stored p [= <-] Hne. now rewrite lookup_insert_ne.
  - discriminate.
Qed.

(** X17.  The stored name depends on the prefix, the sanitised file name and
    the clock read in whole seconds only: two accepted uploads with the same
    client file name, folder and prefix, made without the clock moving, get
    the same stored name, and the second replaces the content of the first. *)
Theorem same_second_uploads_collide (f1 f2 : FileStorage) (folder prefix : string)
    (w : World) :
  allowed_file (filename f1) = true ->
  filename f2 = filename f1 ->
  exists stored,
    (save_uploaded_file (Some f1) folder prefix w).1 = Some stored /\
    (save_uploaded_file (Some f2) folder prefix
       (save_uploaded_file (Some f1) folder prefix w).2).1 = Some stored /\
    files (fs (save_uploaded_file (Some f2) folder prefix
                 (save_uploaded_file (Some f1) folder prefix w).2).2)
      !! PosixPath.join UPLOAD_FOLDER [folder; stored] = Some (stream f2).
Proof.
  intros Ha Hname.
  destruct (save_accepted f1 folder prefix w Ha) as (name & ext & Hsplit & ->).
  cbn [fst snd].
  assert (Ha2 : allowed_file (filename f2) = true) by now rewrite Hname.
  destruct (save_accepted f2 folder prefix
              (mkWorld (db w)
                 (save_at (PosixPath.join UPLOAD_FOLDER
                     [folder; prefix ++ "_" ++ name ++ "_" ++ strftime_stamp (utcnow w) ++ ext])
                    f1 (fs w)) (utcnow w)) Ha2)
    as (name2 & ext2 & Hsplit2 & ->).
  rewrite Hname, Hsplit in Hsplit2. injection Hsplit2 as <- <-.
  cbn [fst snd utcnow fs save_at files].
  eexists. split; [reflexivity|]. split; [reflexivity|].
  apply lookup_insert_eq.
Qed.


End Uploads.

Lemma allowed_file_last_extension_witness :
  allowed_file "shell.php.JPG" = true.
Proof.
  change (allowed_file ("shell.php" ++ "." ++ "JPG") = true).
  rewrite (allowed_file_last_extension "shell.php" "JPG"); vm_compute; reflexivity.
Defined.

Lemma same_second_uploads_collide_witness :
  files (fs (@save_uploaded_file plain_runtime (Some (mkFile "cv.pdf" "second")) "staff" "Ann"
               (@save_uploaded_file plain_runtime (Some (mkFile "cv.pdf" "first")) "staff"
                  "Ann" fresh_world).2).2)
    !! "uploads/staff/Ann_cv_20240101_000000.pdf" = Some "second".
Proof.
  destruct (@same_second_uploads_collide plain_runtime (mkFile "cv.pdf" "first")
              (mkFile "cv.pdf" "second") "staff" "Ann" fresh_world)
    as (stored & Hfirst & _ & Hfile); [reflexivity | reflexivity |].
  assert (Hs : stored = "Ann_cv_20240101_000000.pdf").
  { vm_compute in Hfirst. congruence. }
  subst stored. exact Hfile.
Defined.


(* ===================================================================== *)
(** ** Staff decisions and repeated advances *)
(* ===================================================================== *)

Section Decisions.

Lemma approve_staff_status i w s m :
  logged_in s -> Query.get_staff (db w) i = Some m ->
  staff_status (world (approve_staff i w s)) i = Some 3.
Proof.
  intros Hs Hm. unfold approve_staff, staff_status.
  rewrite (require_admin_logged_in _ Hs), Hm. cbv zeta. cbn [world db].
  rewrite get_staff_commit, Hm. cbn [option_map].
  now rewrite staff_set_status_status.
Qed.

Lemma reject_staff_status i w s m :
  logged_in s -> Query.get_staff (db w) i = Some m ->
  staff_status (world (reject_staff i w s)) i = Some (-1).
Proof.
  intros Hs Hm. unfold reject_staff, staff_status.
  rewrite (require_admin_logged_in _ Hs), Hm. cbv zeta. cbn [world db].
  rewrite get_staff_commit, Hm. cbn [option_map].
  now rewrite staff_set_status_status.
Qed.

(** X19.  For a logged-in admin and a stored staff record in any status,
    [approve_staff] stores status 3 and [reject_staff] stores status -1,
    each also after the other: a rejected applicant can be approved and an
    approved one rejected. *)
Theorem staff_decisions_override i w s m :
  logged_in s ->
  Query.get_staff (db w) i = Some m ->
  staff_status (world (approve_staff i w s)) i = Some 3 /\
  staff_status (world (reject_staff i w s)) i = Some (-1) /\
  staff_status (world (approve_staff i (world (reject_staff i w s)) s)) i = Some 3 /\
  staff_status (world (reject_staff i (world (approve_staff i w s)) s)) i = Some (-1).
Proof.
  intros Hs Hm.
  pose proof (approve_staff_status _ _ _ _ Hs Hm) as Ha.
  pose proof (reject_staff_status _ _ _ _ Hs Hm) as Hr.
  split; [exact Ha|]. split; [exact Hr|]. split.
  - unfold staff_status in Hr.
    destruct (Query.get_staff (db (world (reject_staff i w s))) i) as [m'|] eqn:E;
      [|discriminate Hr].
    exact (approve_staff_status _ _ _ _ Hs E).
  - unfold staff_status in Ha.
    destruct (Query.get_staff (db (world (approve_staff i w s))) i) as [m'|] eqn:E;
      [|discriminate Ha].
    exact (reject_staff_status _ _ _ _ Hs E).
Qed.

(** X20.  Repeated [update_status] calls by a logged-in admin walk a crew
    record up to 3 from wherever it is: from a status [s <= 3], [n] calls
    leave it at [min (s + n) 3].  A rejected record (-1) is therefore
    Approved after four calls. *)
Theorem advance_times_from_any_status n i w s c :
  logged_in s ->
  Query.get_crew (db w) i = Some c ->
  CrewMember.status c <= 3 ->
  crew_status (advance_times n i w s) i
  = Some (Z.min (CrewMember.status c + Z.of_nat n) 3).
Proof.
  intros Hs Hc Hr. induction n as [|n IH].
  - simpl. unfold crew_status. rewrite Hc. simpl. f_equal. lia.
  - cbn [advance_times]. unfold crew_status in IH.
    destruct (Query.get_crew (db (advance_times n i w s)) i) as [c'|] eqn:E;
      [|discriminate IH].
    rewrite (update_status_status _ _ _ _ Hs E). simpl in IH.
    injection IH as IH. rewrite IH. f_equal.
    destruct (_ <? 3) eqn:E3; [apply Z.ltb_lt in E3 | apply Z.ltb_ge in E3]; lia.
Qed.

End Decisions.

Lemma staff_decisions_override_witness :
  staff_status
    (world (approve_staff 1 (world (reject_staff 1 ann_world admin_session)) admin_session)) 1
  = Some 3.
Proof.
  destruct (staff_decisions_override 1 ann_world admin_session
              (StaffMember.mk 1 "Ann Lee" "ann@example.org" "Crewing Officer" "Crewing"
                 None "" "" None (Some "Ann_Lee_resume_cv_20240101_000000.docx") None
                 1 100 100))
    as (_ & _ & Hboth & _); [vm_compute; reflexivity | vm_compute; reflexivity |].
  exact Hboth.
Defined.

Lemma advance_times_from_any_status_witness :
  crew_status (advance_times 4 1 rejected_world admin_session) 1 = Some 3.
Proof.
  apply (advance_times_from_any_status 4 1 rejected_world admin_session (jane_record (-1)));
    vm_compute; (reflexivity || discriminate).
Defined.

(* ===================================================================== *)
(** ** The dashboard *)
(* ===================================================================== *)

Section DashboardFacts.
Context `{Runtime}.

Lemma insert_desc_perm {A : Type} (key : A -> Z) (a : A) (l : list A) :
  Permutation (insert_desc key a l) (a :: l).
Proof.
  induction l as [|b l IH]; simpl; [reflexivity|].
  destruct (key a <? key b); [|reflexivity].
  rewrite IH. apply perm_swap.
Qed.

Lemma fold_insert_perm {A : Type} (key : A -> Z) (l acc : list A) :
  Permutation (fold_left (fun sorted a => insert_desc key a sorted) l acc) (l ++ acc)%list.
Proof.
  revert acc. induction l as [|a l IH]; intros acc; simpl; [reflexivity|].
  rewrite IH, insert_desc_perm. symmetry. apply Permutation_middle.
Qed.

Lemma order_by_desc_perm {A : Type} (key : A -> Z) (l : list A) :
  Permutation (order_by_desc key l) l.
Proof.
  unfold order_by_desc. rewrite fold_insert_perm. now rewrite app_nil_r.
Qed.

Lemma insert_desc_sorted {A : Type} (key : A -> Z) (a : A) (l : list A) :
  StronglySorted (fun x y => key y <= key x) l ->
  StronglySorted (fun x y => key y <= key x) (insert_desc key a l).
Proof.
  induction 1 as [|b l Hl IH Hb]; simpl.
  - constructor; constructor.
  - destruct (key a <? key b) eqn:E.
    + apply Z.ltb_lt in E. constructor; [exact IH|].
      apply (Permutation_Forall (Permutation_sym (insert_desc_perm key a l))).
      constructor; [lia | exact Hb].
    + apply Z.ltb_ge in E. constructor; [now constructor|].
      constructor; [exact E|].
      eapply Forall_impl; [exact Hb|]. simpl. intros x Hx. lia.
Qed.

Lemma order_by_desc_sorted {A : Type} (key : A -> Z) (l : list A) :
  StronglySorted (fun x y => key y <= key x) (order_by_desc key l).
Proof.
  unfold order_by_desc.
  assert (Hgen : forall acc,
            StronglySorted (fun x y => key y <= key x) acc ->
            StronglySorted (fun x y => key y <= key x)
              (fold_left (fun sorted a => insert_desc key a sorted) l acc)).
  { induction l as [|a l IH]; intros acc Hacc; simpl; [exact Hacc|].
    apply IH, insert_desc_sorted, Hacc. }
  apply Hgen. constructor.
Qed.

Lemma count_cons {A : Type} (p : A -> bool) (a : A) (l : list A) :
  count p (a :: l) = (if p a then 1 else 0) + count p l.
Proof.
  unfold count. simpl. destruct (p a); simpl List.length; lia.
Qed.

Lemma count_perm {A : Type} (p : A -> bool) (l l' : list A) :
  Permutation l l' -> count p l = count p l'.
Proof.
  induction 1 as [|a l l' Hp IH|a b l|l1 l2 l3 H12 IH12 H23 IH23].
  - reflexivity.
  - rewrite !count_cons. lia.
  - rewrite !count_cons. lia.
  - congruence.
Qed.

Lemma count_bounds {A : Type} (p q : A -> bool) (l : list A) :
  (forall a, p a = true -> q a = true -> False) ->
  0 <= count p l /\ count p l + count q l <= Z.of_nat (List.length l).
Proof.
  intros Hpq. induction l as [|a l [IH0 IH]].
  - unfold count. simpl. lia.
  - rewrite !count_cons. simpl List.length.
    specialize (Hpq a). destruct (p a), (q a); lia || (exfalso; auto).
Qed.

(** X21.  For a logged-in admin [dashboard] renders without touching world
    or session.  Its crew and staff lists hold exactly the stored rows,
    latest creation time first; the statistics are the row counts of the
    tables: all rows, crew rows at status 1, staff rows at status 1, and crew
    plus staff rows at status 3; and the groups "screening" and "approved"
    are the listed rows at status 1 and 3.  Rows in any other status are in
    the total but in no group, so the three counts sum to at most the
    total. *)
Theorem dashboard_shows_the_tables w s :
  logged_in s ->
  exists v,
    dashboard w s = (mkResult (render_template "dashboard.html" no_context) [] w s, Some v) /\
    Permutation (dash_crew v) (crew_members (db w)) /\
    Permutation (dash_staff v) (staff_members (db w)) /\
    StronglySorted (fun a b => CrewMember.created_at b <= CrewMember.created_at a)
                   (dash_crew v) /\
    StronglySorted (fun a b => StaffMember.created_at b <= StaffMember.created_at a)
                   (dash_staff v) /\
    stats v !! "total_registrations"
    = Some (Z.of_nat (List.length (crew_members (db w)))
            + Z.of_nat (List.length (staff_members (db w)))) /\
    stats v !! "crew_in_screening"
    = Some (count (fun c => CrewMember.status c =? 1) (crew_members (db w))) /\
    stats v !! "staff_in_screening"
    = Some (count (fun m => StaffMember.status m =? 1) (staff_members (db w))) /\
    stats v !! "approved_profiles"
    = Some (count (fun c => CrewMember.status c =? 3) (crew_members (db w))
            + count (fun m => StaffMember.status m =? 3) (staff_members (db w))) /\
    crew_by_status v !! "screening"
    = Some (List.filter (fun c => CrewMember.status c =? 1) (dash_crew v)) /\
    crew_by_status v !! "approved"
    = Some (List.filter (fun c => CrewMember.status c =? 3) (dash_crew v)) /\
    staff_by_status v !! "screening"
    = Some (List.filter (fun m => StaffMember.status m =? 1) (dash_staff v)) /\
    staff_by_status v !! "approved"
    = Some (List.filter (fun m => StaffMember.status m =? 3) (dash_staff v)) /\
    count (fun c => CrewMember.status c =? 1) (crew_members (db w))
    + count (fun m => StaffMember.status m =? 1) (staff_members (db w))
    + (count (fun c => CrewMember.status c =? 3) (crew_members (db w))
       + count (fun m => StaffMember.status m =? 3) (staff_members (db w)))
    <= Z.of_nat (List.length (crew_members (db w)))
       + Z.of_nat (List.length (staff_members (db w))).
Proof.
  intros Hs. unfold dashboard. rewrite (require_admin_logged_in _ Hs). cbv zeta.
  eexists. split; [reflexivity|].
  cbn [dash_crew dash_staff stats crew_by_status staff_by_status].
  pose proof (order_by_desc_perm CrewMember.created_at (crew_members (db w))) as Pc.
  pose proof (order_by_desc_perm StaffMember.created_at (staff_members (db w))) as Ps.
  split; [exact Pc|]. split; [exact Ps|].
  split; [apply order_by_desc_sorted|]. split; [apply order_by_desc_sorted|].
  split.
  { rewrite !lookup_insert_ne by discriminate. rewrite lookup_insert_eq.
    now rewrite (Permutation_length Pc), (Permutation_length Ps). }
  split.
  { rewrite !lookup_insert_ne by discriminate. rewrite lookup_insert_eq.
    f_equal. exact (count_perm _ _ _ Pc). }
  split.
  { rewrite !lookup_insert_ne by discriminate. rewrite lookup_insert_eq.
    f_equal. exact (count_perm _ _ _ Ps). }
  split.
  { rewrite lookup_insert_eq. f_equal.
    change (count (fun c => CrewMember.status c =? 3)
              (order_by_desc CrewMember.created_at (crew_members (db w)))
            + count (fun m => StaffMember.status m =? 3)
                (order_by_desc StaffMember.created_at (staff_members (db w)))
            = count (fun c => CrewMember.status c =? 3) (crew_members (db w))
              + count (fun m => StaffMember.status m =? 3) (staff_members (db w))).
    now rewrite (count_perm _ _ _ Pc), (count_perm _ _ _ Ps). }
  split; [now rewrite lookup_insert_ne, lookup_insert_eq|].
  split; [now rewrite lookup_insert_eq|].
  split; [now rewrite lookup_insert_ne, lookup_insert_eq|].
  split; [now rewrite lookup_insert_eq|].
  pose proof (count_bounds (fun c => CrewMember.status c =? 1)
                (fun c => CrewMember.status c =? 3) (crew_members (db w))) as [_ Bc].
  { intros a H1 H3. apply Z.eqb_eq in H1, H3. congruence. }
  pose proof (count_bounds (fun m => StaffMember.status m =? 1)
                (fun m => StaffMember.status m =? 3) (staff_members (db w))) as [_ Bs].
  { intros a H1 H3. apply Z.eqb_eq in H1, H3. congruence. }
  lia.
Qed.

End DashboardFacts.

Section DashboardCounts.
Context `{Runtime}.

Lemma dashboard_stats w s :
  logged_in s ->
  exists v,
    (dashboard w s).2 = Some v /\
    stats v !! "total_registrations"
    = Some (Z.of_nat (List.length (crew_members (db w)))
            + Z.of_nat (List.length (staff_members (db w)))) /\
    stats v !! "approved_profiles"
    = Some (count (fun c => CrewMember.status c =? 3) (crew_members (db w))
            + count (fun m => StaffMember.status m =? 3) (staff_members (db w))).
Proof.
  intros Hs. unfold dashboard. rewrite (require_admin_logged_in _ Hs). cbv zeta.
  eexists. split; [reflexivity|]. cbn [stats].
  pose proof (order_by_desc_perm CrewMember.created_at (crew_members (db w))) as Pc.
  pose proof (order_by_desc_perm StaffMember.created_at (staff_members (db w))) as Ps.
  split.
  - rewrite !lookup_insert_ne by discriminate. rewrite lookup_insert_eq.
    now rewrite (Permutation_length Pc), (Permutation_length Ps).
  - rewrite lookup_insert_eq. f_equal.
    change (count (fun c => CrewMember.status c =? 3)
              (order_by_desc CrewMember.created_at (crew_members (db w)))
            + count (fun m => StaffMember.status m =? 3)
                (order_by_desc StaffMember.created_at (staff_members (db w)))
            = count (fun c => CrewMember.status c =? 3) (crew_members (db w))
              + count (fun m => StaffMember.status m =? 3) (staff_members (db w))).
    now rewrite (count_perm _ _ _ Pc), (count_perm _ _ _ Ps).
Qed.

Lemma update_absent {A : Type} (key : A -> Z) (f : A -> A) (i : Z) (l : list A) :
  ~ In i (map key l) -> map (fun a => if key a =? i then f a else a) l = l.
Proof.
  induction l as [|a l IH]; simpl; intros Hn; [reflexivity|].
  destruct (key a =? i) eqn:E.
  - apply Z.eqb_eq in E. contradiction Hn. now left.
  - f_equal. apply IH. tauto.
Qed.

(** Updating the one row under a key moves a count by that row alone. *)
Lemma count_updated {A : Type} (key : A -> Z) (p : A -> bool) (f : A -> A)
    (i : Z) (l : list A) (c : A) :
  List.NoDup (map key l) ->
  find (fun a => key a =? i) l = Some c ->
  count p (map (fun a => if key a =? i then f a else a) l)
  = count p l - (if p c then 1 else 0) + (if p (f c) then 1 else 0).
Proof.
  induction l as [|a l IH]; simpl; intros Hnd Hf; [discriminate|].
  inversion Hnd as [|k ks Hnotin Hnd']; subst.
  destruct (key a =? i) eqn:E.
  - injection Hf as ->. apply Z.eqb_eq in E. rewrite E in Hnotin.
    rewrite (update_absent key f i l Hnotin), !count_cons. lia.
  - rewrite !count_cons, (IH Hnd' Hf). lia.
Qed.

(** X22.  In a reachable world, when a logged-in admin approves a stored
    crew record that was not approved, the dashboard's [approved_profiles] goes
    up by exactly one; when the admin rejects an approved one, it goes down
    by exactly one; [total_registrations] stays the same in both cases. *)
Theorem dashboard_follows_decisions w s i c :
  reachable w ->
  logged_in s ->
  Query.get_crew (db w) i = Some c ->
  exists v n total,
    (dashboard w s).2 = Some v /\
    stats v !! "approved_profiles" = Some n /\
    stats v !! "total_registrations" = Some total /\
    (CrewMember.status c <> 3 ->
       exists v',
         (dashboard (world (approve_crew i w s)) s).2 = Some v' /\
         stats v' !! "approved_profiles" = Some (n + 1) /\
         stats v' !! "total_registrations" = Some total) /\
    (CrewMember.status c = 3 ->
       exists v',
         (dashboard (world (reject_crew i w s)) s).2 = Some v' /\
         stats v' !! "approved_profiles" = Some (n - 1) /\
         stats v' !! "total_registrations" = Some total).
Proof.
  intros Hw Hs Hc.
  destruct (reachable_tables_ok w Hw) as ([Hnd _] & _).
  destruct (dashboard_stats w s Hs) as (v & Hv & Htotal & Happroved).
  exists v. eexists. eexists.
  split; [exact Hv|]. split; [exact Happroved|]. split; [exact Htotal|].
  assert (Hcount : forall st,
    count (fun c => CrewMember.status c =? 3)
      (crew_members (commit_crew_status (utcnow w) i st (db w)))
    = count (fun c => CrewMember.status c =? 3) (crew_members (db w))
      - (if CrewMember.status c =? 3 then 1 else 0) + (if st =? 3 then 1 else 0)).
  { intros st. cbn [commit_crew_status crew_members].
    rewrite (count_updated CrewMember.id _ _ i _ c Hnd Hc).
    now rewrite crew_set_status_status. }
  split.
  - intros Hne. unfold approve_crew. rewrite (require_admin_logged_in _ Hs), Hc.
    cbv zeta. cbn [world].
    destruct (dashboard_stats
                (mkWorld (commit_crew_status (utcnow w) i 3 (db w)) (fs w) (utcnow w)) s Hs)
      as (v' & Hv' & Htotal' & Happroved').
    exists v'. split; [exact Hv'|]. cbn [db] in Htotal', Happroved'.
    rewrite Happroved', Htotal', (Hcount 3).
    cbn [commit_crew_status crew_members staff_members]. rewrite length_map.
    apply Z.eqb_neq in Hne. rewrite Hne. split; [f_equal; simpl; lia | reflexivity].
  - intros Heq. unfold reject_crew. rewrite (require_admin_logged_in _ Hs), Hc.
    cbv zeta. cbn [world].
    destruct (dashboard_stats
                (mkWorld (commit_crew_status (utcnow w) i (-1) (db w)) (fs w) (utcnow w)) s Hs)
      as (v' & Hv' & Htotal' & Happroved').
    exists v'. split; [exact Hv'|]. cbn [db] in Htotal', Happroved'.
    rewrite Happroved', Htotal', (Hcount (-1)).
    cbn [commit_crew_status crew_members staff_members]. rewrite length_map.
    rewrite Heq. split; [f_equal; simpl; lia | reflexivity].
Qed.

End DashboardCounts.

Lemma dashboard_shows_the_tables_witness :
  exists v,
    (dashboard approved_world admin_session).2 = Some v /\
    stats v !! "approved_profiles" = Some 1 /\
    stats v !! "crew_in_screening" = Some 0.
Proof.
  destruct (dashboard_shows_the_tables approved_world admin_session)
    as (v & Hd & _ & _ & _ & _ & _ & Hscreen & _ & Happroved & _).
  - vm_compute. reflexivity.
  - exists v. rewrite Hd, Happroved, Hscreen. repeat split.
Defined.

Lemma dashboard_follows_decisions_witness :
  exists v',
    (dashboard (world (approve_crew 1 jane_world admin_session)) admin_session).2 = Some v' /\
    stats v' !! "approved_profiles" = Some 1.
Proof.
  destruct (@dashboard_follows_decisions plain_runtime jane_world admin_session 1
              (jane_record 0) jane_world_reachable)
    as (v & n & total & Hv & Hn & _ & Happrove & _);
    [vm_compute; reflexivity | vm_compute; reflexivity |].
  destruct Happrove as (v' & Hv' & Hn' & _); [vm_compute; discriminate|].
  exists v'. split; [exact Hv'|].
  assert (Hzero : n = 0).
  { destruct (dashboard_stats jane_world admin_session) as (v0 & Hv0 & _ & Ha0);
      [vm_compute; reflexivity|].
    rewrite Hv in Hv0. injection Hv0 as <-. rewrite Hn in Ha0.
    injection Ha0 as ->. vm_compute. reflexivity. }
  now rewrite Hn', Hzero.
Defined.

(* ===================================================================== *)
(** ** File references *)
(* ===================================================================== *)

Section References.
Context `{Runtime}.

Lemma grows_refl s : grows s s.
Proof. now intros p. Qed.

Lemma grows_trans s1 s2 s3 : grows s1 s2 -> grows s2 s3 -> grows s1 s3.
Proof. intros H12 H23 p Hp. apply H23, H12, Hp. Qed.

Lemma save_grows file folder prefix w out w' :
  save_uploaded_file file folder prefix w = (out, w') -> grows (fs w) (fs w').
Proof.
  unfold save_uploaded_file. destruct file as [f|]; [|intros [= _ <-]; apply grows_refl].
  destruct (_ && _); [|intros [= _ <-]; apply grows_refl].
  destruct (PosixPath.splitext _) as [name ext]. intros [= _ <-] p Hp.
  cbn [fs save_at files]. rewrite lookup_insert. case_decide; [eauto | exact Hp].
Qed.

Lemma save_stored file folder prefix w out w' :
  save_uploaded_file file folder prefix w = (out, w') -> stored_in (fs w') folder out.
Proof.
  unfold save_uploaded_file. destruct file as [f|]; [|now intros [= <- _]].
  destruct (_ && _); [|now intros [= <- _]].
  destruct (PosixPath.splitext _) as [name ext]. intros [= <- <-].
  cbn [stored_in fs save_at files]. rewrite lookup_insert_eq. eauto.
Qed.

Lemma stored_in_grows s s' folder ref :
  grows s s' -> stored_in s folder ref -> stored_in s' folder ref.
Proof. intros Hg. destruct ref as [n|]; [apply Hg | trivial]. Qed.

Lemma refs_grow {A : Type} (refs : A -> list (option string)) s s' folder (l : list A) :
  grows s s' ->
  Forall (fun a => Forall (stored_in s folder) (refs a)) l ->
  Forall (fun a => Forall (stored_in s' folder) (refs a)) l.
Proof.
  intros Hg Hl. eapply Forall_impl; [exact Hl|]. intros a Ha. simpl.
  eapply Forall_impl; [exact Ha|]. intros ref. now apply stored_in_grows.
Qed.

(** A successful [register]: the four saves it made, in order, and the row
    that refers to what they returned. *)
Lemma register_uploads r w s :
  (world (register r w s) = w /\
   response (register r w s) = render_template "register.html" no_context) \/
  exists c p1 p2 p3 p4 f1 w1 f2 w2 f3 w3 f4 w4,
    save_uploaded_file (uploads r !! "passport_file") "crew" p1 w = (f1, w1) /\
    save_uploaded_file (uploads r !! "cdc_file") "crew" p2 w1 = (f2, w2) /\
    save_uploaded_file (uploads r !! "resume_file") "crew" p3 w2 = (f3, w3) /\
    save_uploaded_file (uploads r !! "photo_file") "crew" p4 w3 = (f4, w4) /\
    p1 = replace " " "_" (strip (form_get r "name")) ++ "_passport" /\
    p4 = replace " " "_" (strip (form_get r "name")) ++ "_photo" /\
    world (register r w s)
    = mkWorld (mkDB (admins (db w)) (crew_members (db w) ++ [c])%list (staff_members (db w)))
              (fs w4) (utcnow w4) /\
    crew_refs c = [f1; f2; f3; f4].
Proof.
  unfold register. destruct (method r); [now left|].
  destruct (_ || _); [now left|].
  destruct (Query.crew_by_passport _ _) eqn:Hq; [now left|].
  destruct (convert strptime_date _) as [d1|]; [|now left].
  destruct (convert strptime_date _) as [d2|]; [|now left].
  destruct (convert int_of_str _) as [y|]; [|now left].
  destruct (save_uploaded_file _ _ _ w) as [f1 w1] eqn:E1.
  destruct (save_uploaded_file _ _ _ w1) as [f2 w2] eqn:E2.
  destruct (save_uploaded_file _ _ _ w2) as [f3 w3] eqn:E3.
  destruct (save_uploaded_file _ _ _ w3) as [f4 w4] eqn:E4.
  assert (Hdb : db w4 = db w).
  { rewrite (saved_db _ _ _ _ _ _ E4), (saved_db _ _ _ _ _ _ E3),
      (saved_db _ _ _ _ _ _ E2). exact (saved_db _ _ _ _ _ _ E1). }
  unfold insert_crew. cbn [CrewMember.passport]. rewrite Hdb, Hq. cbn [world].
  right. do 13 eexists.
  split; [exact E1|]. split; [exact E2|]. split; [exact E3|]. split; [exact E4|].
  split; [reflexivity|]. split; [reflexivity|]. split; reflexivity.
Qed.

Lemma register_staff_uploads r w s :
  world (register_staff r w s) = w \/
  exists m p1 p2 f1 w1 f2 w2,
    save_uploaded_file (uploads r !! "resume_file") "staff" p1 w = (f1, w1) /\
    save_uploaded_file (uploads r !! "photo_file") "staff" p2 w1 = (f2, w2) /\
    world (register_staff r w s)
    = mkWorld (mkDB (admins (db w)) (crew_members (db w)) (staff_members (db w) ++ [m])%list)
              (fs w2) (utcnow w2) /\
    staff_refs m = [f1; f2].
Proof.
  unfold register_staff. destruct (method r); [now left|].
  destruct (_ || _); [now left|].
  destruct (convert strptime_date _) as [d2|]; [|now left].
  destruct (convert int_of_str _) as [y|]; [|now left].
  destruct (save_uploaded_file _ _ _ w) as [f1 w1] eqn:E1.
  destruct (save_uploaded_file _ _ _ w1) as [f2 w2] eqn:E2.
  assert (Hdb : db w2 = db w).
  { rewrite (saved_db _ _ _ _ _ _ E2). exact (saved_db _ _ _ _ _ _ E1). }
  unfold insert_staff. rewrite Hdb. cbn [world].
  right. do 7 eexists.
  split; [exact E1|]. split; [exact E2|]. split; reflexivity.
Qed.

(** The routes other than the two registrations leave the upload folder
    alone and at most set a status. *)
Lemma handle_other rt w s :
  (forall r, rt <> Register r) -> (forall r, rt <> RegisterStaff r) ->
  fs (world (handle rt w s)) = fs w /\
  (db (world (handle rt w s)) = db w \/
   exists now i st,
     db (world (handle rt w s)) = commit_crew_status now i st (db w) \/
     db (world (handle rt w s)) = commit_staff_status now i st (db w)).
Proof.
  intros Hr Hrs.
  destruct rt as [r|r|i|r|r| |i|i|i|i|i|i]; cbn [handle];
    [now contradiction (Hr r) | now contradiction (Hrs r) | | | | | | | | | | ].
  - unfold update_status.
    destruct (require_admin s) as [[a b]|]; [now split; [|left]|].
    destruct (Query.get_crew _ _); [|now split; [|left]].
    destruct (_ <? _); [|now split; [|left]].
    destruct (py_index _ _); (split; [reflexivity | right; eauto]).
  - unfold track. destruct (method r); [now split; [|left]|].
    destruct (negb _); [now split; [|left]|].
    destruct (Query.crew_by_passport _ _); now split; [|left].
  - unfold admin_login. destruct (method r).
    + destruct (sval_truthy _); now split; [|left].
    + destruct (_ || _); [now split; [|left]|].
      destruct (Query.admin_by_username _ _); [|now split; [|left]].
      destruct (check_password_hash _ _); now split; [|left].
  - now split; [|left].
  - unfold crew_profile. destruct (require_admin s) as [[a b]|]; [now split; [|left]|].
    destruct (Query.get_crew _ _); now split; [|left].
  - unfold staff_profile. destruct (require_admin s) as [[a b]|]; [now split; [|left]|].
    destruct (Query.get_staff _ _); now split; [|left].
  - unfold approve_crew. destruct (require_admin s) as [[a b]|]; [now split; [|left]|].
    destruct (Query.get_crew _ _); [|now split; [|left]].
    split; [reflexivity | right; eauto].
  - unfold reject_crew. destruct (require_admin s) as [[a b]|]; [now split; [|left]|].
    destruct (Query.get_crew _ _); [|now split; [|left]].
    split; [reflexivity | right; eauto].
  - unfold approve_staff. destruct (require_admin s) as [[a b]|]; [now split; [|left]|].
    destruct (Query.get_staff _ _); [|now split; [|left]].
    split; [reflexivity | right; eauto].
  - unfold reject_staff. destruct (require_admin s) as [[a b]|]; [now split; [|left]|].
    destruct (Query.get_staff _ _); [|now split; [|left]].
    split; [reflexivity | right; eauto].
Qed.

Lemma crew_refs_set_status st now c :
  crew_refs (CrewMember.set_status st now c) = crew_refs c.
Proof. unfold CrewMember.set_status. now destruct (_ =? _). Qed.

Lemma staff_refs_set_status st now m :
  staff_refs (StaffMember.set_status st now m) = staff_refs m.
Proof. unfold StaffMember.set_status. now destruct (_ =? _). Qed.

Lemma other_refs_ok rt w s :
  (forall r, rt <> Register r) -> (forall r, rt <> RegisterStaff r) ->
  refs_ok w -> refs_ok (world (handle rt w s)).
Proof.
  intros Hr Hrs [Hc Hs]. destruct (handle_other rt w s Hr Hrs) as [Hfs Hdb].
  unfold refs_ok. rewrite Hfs.
  destruct Hdb as [-> | (now & i & st & [-> | ->])]; [now split | |];
    cbn [commit_crew_status commit_staff_status crew_members staff_members];
    (split; [|]); try assumption.
  - rewrite Forall_forall in *. intros c' Hin.
    apply list_elem_of_In, in_map_iff in Hin as (c & <- & Hin).
    destruct (_ =? _); [rewrite crew_refs_set_status|]; apply Hc, list_elem_of_In, Hin.
  - rewrite Forall_forall in *. intros m' Hin.
    apply list_elem_of_In, in_map_iff in Hin as (m & <- & Hin).
    destruct (_ =? _); [rewrite staff_refs_set_status|]; apply Hs, list_elem_of_In, Hin.
Qed.

Lemma handle_refs_ok rt w s : refs_ok w -> refs_ok (world (handle rt w s)).
Proof.
  intros Hok.
  destruct rt as [r|r|i|r|r| |i|i|i|i|i|i];
    try (apply other_refs_ok; [discriminate | discriminate | exact Hok]);
    destruct Hok as [Hc Hs]; cbn [handle].
  - destruct (register_uploads r w s)
      as [[-> _] | (c & p1 & p2 & p3 & p4 & f1 & w1 & f2 & w2 & f3 & w3 & f4 & w4
                    & E1 & E2 & E3 & E4 & _ & _ & -> & Hrefs)]; [now split|].
    pose proof (save_grows _ _ _ _ _ _ E1) as G1.
    pose proof (save_grows _ _ _ _ _ _ E2) as G2.
    pose proof (save_grows _ _ _ _ _ _ E3) as G3.
    pose proof (save_grows _ _ _ _ _ _ E4) as G4.
    pose proof (grows_trans _ _ _ G3 G4) as G34.
    pose proof (grows_trans _ _ _ G2 G34) as G24.
    pose proof (grows_trans _ _ _ G1 G24) as G14.
    split; cbn [db fs crew_members staff_members].
    + apply Forall_app. split; [exact (refs_grow _ _ _ _ _ G14 Hc)|].
      constructor; [|constructor]. rewrite Hrefs.
      repeat constructor.
      * exact (stored_in_grows _ _ _ _ G24 (save_stored _ _ _ _ _ _ E1)).
      * exact (stored_in_grows _ _ _ _ G34 (save_stored _ _ _ _ _ _ E2)).
      * exact (stored_in_grows _ _ _ _ G4 (save_stored _ _ _ _ _ _ E3)).
      * exact (save_stored _ _ _ _ _ _ E4).
    + exact (refs_grow _ _ _ _ _ G14 Hs).
  - destruct (register_staff_uploads r w s)
      as [-> | (m & p1 & p2 & f1 & w1 & f2 & w2 & E1 & E2 & -> & Hrefs)]; [now split|].
    pose proof (save_grows _ _ _ _ _ _ E1) as G1.
    pose proof (save_grows _ _ _ _ _ _ E2) as G2.
    pose proof (grows_trans _ _ _ G1 G2) as G12.
    split; cbn [db fs crew_members staff_members].
    + exact (refs_grow _ _ _ _ _ G12 Hc).
    + apply Forall_app. split; [exact (refs_grow _ _ _ _ _ G12 Hs)|].
      constructor; [|constructor]. rewrite Hrefs.
      repeat constructor.
      * exact (stored_in_grows _ _ _ _ G2 (save_stored _ _ _ _ _ _ E1)).
      * exact (save_stored _ _ _ _ _ _ E2).
Qed.

(** X23.  In every reachable world each file reference of each record names
    a file that is in the upload folder, under [uploads/crew] for a crew
    record and [uploads/staff] for a staff record: a reference is written
    only after its file was saved, and no route removes a file. *)
Theorem reachable_refs_stored w : reachable w -> refs_ok w.
Proof.
  induction 1 as [now | w t Hw IH Ht | w rt s Hw IH].
  - split; constructor.
  - exact IH.
  - now apply handle_refs_ok.
Qed.


End References.

Lemma reachable_refs_stored_witness : refs_ok scan_world.
Proof.
  apply (@reachable_refs_stored plain_runtime).
  exact (reach_handle _ (Register scan_form) ∅ (reach_start 100)).
Defined.

